(** * Dead.net store monitors: page/variant checker and catalog novelty detector

    A shallow embedding of [monitor.py] and [store_monitor.py].  Both scripts
    are straight-line Python: they read the process environment, perform
    blocking HTTP requests, print to stdout/stderr and (for the novelty
    detector) read and rewrite one cache file.  The embedding threads an
    explicit state (the output trace, the number of POST requests made so
    far and the cache file) through a small state-and-exception monad; the
    outside world (environment variables, HTTP servers, the file system's
    willingness to accept a write) is a record of oracles. *)

From Stdlib Require Import String Ascii List Bool Arith Lia.
Import ListNotations.
Open Scope string_scope.
Open Scope nat_scope.

(** ** Python strings

    Strings are byte strings; [lower] and [title] follow Python's [str.lower]
    and [str.title] on the ASCII range, which is where the two scripts use
    them (keywords and link texts). *)

Module PyStr.

Definition is_upper (c : ascii) : bool :=
  let n := nat_of_ascii c in (65 <=? n) && (n <=? 90).

Definition is_lower (c : ascii) : bool :=
  let n := nat_of_ascii c in (97 <=? n) && (n <=? 122).

Definition lower_char (c : ascii) : ascii :=
  if is_upper c then ascii_of_nat (nat_of_ascii c + 32) else c.

Definition upper_char (c : ascii) : ascii :=
  if is_lower c then ascii_of_nat (nat_of_ascii c - 32) else c.

(** [s.lower()] *)
Fixpoint lower (s : string) : string :=
  match s with
  | EmptyString => EmptyString
  | String c r => String (lower_char c) (lower r)
  end.

(** [s.title()]: a cased character is upper-cased when the character before
    it is not cased, and lower-cased otherwise. *)
Fixpoint title_from (previous_is_cased : bool) (s : string) : string :=
  match s with
  | EmptyString => EmptyString
  | String c r =>
      if is_lower c then
        String (if previous_is_cased then c else upper_char c) (title_from true r)
      else if is_upper c then
        String (if previous_is_cased then lower_char c else c) (title_from true r)
      else String c (title_from false r)
  end.

Definition title (s : string) : string := title_from false s.

(** [s.startswith(p)] *)
Definition startswith (s p : string) : bool := String.prefix p s.

(** [needle in hay] on two strings: substring test. *)
Fixpoint str_in (needle hay : string) : bool :=
  if String.prefix needle hay then true
  else match hay with
       | EmptyString => false
       | String _ r => str_in needle r
       end.

(** [s.rstrip("/")]: drop every trailing slash. *)
Fixpoint rstrip_slash (s : string) : string :=
  match s with
  | EmptyString => EmptyString
  | String c r =>
      match rstrip_slash r with
      | EmptyString => if Ascii.eqb c "/" then EmptyString else String c EmptyString
      | r' => String c r'
      end
  end.

(** Truthiness of a string: non-empty. *)
Definition truthy (s : string) : bool :=
  match s with EmptyString => false | _ => true end.

(** Truthiness of [str | None]. *)
Definition truthy_opt (o : option string) : bool :=
  match o with Some s => truthy s | None => false end.

End PyStr.

(** ** JSON values as [json.load] / [resp.json()] return them

    Objects are the parsed [dict] listed as its items (keys are distinct, so
    looking up the first occurrence is [dict.get]); a number is represented
    by its magnitude, of which the scripts only ever observe the truth value. *)

#[local] Set Warnings "-register-all".
Inductive json : Type :=
  | JNull
  | JBool (b : bool)
  | JNum (n : nat)
  | JStr (s : string)
  | JArr (items : list json)
  | JObj (fields : list (string * json)).

(** [d.get(key)] on the items of a dict; [None] when the key is absent. *)
Fixpoint dict_lookup (fields : list (string * json)) (key : string) : option json :=
  match fields with
  | [] => None
  | (k, v) :: rest => if String.eqb k key then Some v else dict_lookup rest key
  end.

(** [d.get(key, default)] *)
Definition dict_get (fields : list (string * json)) (key : string) (default : json) : json :=
  match dict_lookup fields key with
  | Some v => v
  | None => default
  end.

(** Python truth value of a parsed JSON value ([None] is [JNull]). *)
Definition json_truthy (v : json) : bool :=
  match v with
  | JNull => false
  | JBool b => b
  | JNum n => negb (n =? 0)
  | JStr s => PyStr.truthy s
  | JArr l => match l with [] => false | _ => true end
  | JObj l => match l with [] => false | _ => true end
  end.

(** [v is None] *)
Definition is_none (v : json) : bool :=
  match v with JNull => true | _ => false end.

(** ** Exceptions, observable events and the outside world *)

(** An exception: its class name and [str(exc)]. *)
Record exn : Type := Exn { exn_class : string; exn_text : string }.

Inductive result (A : Type) : Type :=
  | Ok (a : A)
  | Raise (e : exn).
Arguments Ok {A} a.
Arguments Raise {A} e.

(** What a run does that an operator can observe. *)
Inductive event : Type :=
  | EStdout (line : string)                       (* print(line) *)
  | EStderr (line : string)                       (* print(line, file=sys.stderr) *)
  | EPost (url body : string) (timeout : nat)     (* requests.post(url, data=body, timeout=...) *)
  | EWrite (path : string) (titles : list string) (* open(path, "w") ... json.dump(titles, f) *).

(** A [requests.Response]: its status code, the text of the [HTTPError] that
    [raise_for_status()] builds for it, and what the caller reads from the
    body. *)
Record response (A : Type) : Type := Response {
  status_code : nat;
  http_error : string;
  payload : A
}.
Arguments Response {A} status_code http_error payload.
Arguments status_code {A} r.
Arguments http_error {A} r.
Arguments payload {A} r.

(** The answer to one HTTP request: [requests] raises (timeout, connection
    error, invalid URL), or a response comes back. *)
Inductive http_outcome (A : Type) : Type :=
  | HttpRaises (e : exn)
  | HttpResponse (r : response A).
Arguments HttpRaises {A} e.
Arguments HttpResponse {A} r.

(** Which status codes make [response.raise_for_status()] of the requests
    library raise: client and server errors, and no other code. *)
Definition is_http_error (code : nat) : bool :=
  (400 <=? code) && (code <? 600).

(** One hyperlink of the parsed collection page: an [<a>] tag that carries an
    [href] attribute, with [link.get_text(strip=True)] and [link["href"]]. *)
Record link : Type := Link { link_text : string; link_href : string }.

(** What BeautifulSoup extracts from a fetched page: [find_all("a", href=True)]
    and, for every [h2]/[h3] in document order, [heading.get_text(strip=True)]. *)
Record page : Type := Page { page_links : list link; page_headings : list string }.

(** The cache file of the novelty detector. *)
Inductive file_state : Type :=
  | FAbsent                 (* os.path.exists is False *)
  | FUnreadable (e : exn)   (* exists, but open(..., "r") raises *)
  | FMalformed (e : exn)    (* opens, but json.load raises *)
  | FJson (v : json)        (* json.load returns v *).

(** How an attempt to rewrite the cache file ends. *)
Inductive write_outcome : Type :=
  | WriteOk
  | WriteOpenFails (e : exn)  (* open(..., "w") raises: the file is as it was *)
  | WriteDumpFails (e parse_error : exn)
      (* the file was truncated and json.dump raised part way: what is left
         is a strict prefix of the text of a JSON array, which does not parse *).

Record world : Type := World {
  getenv : string -> option string;                       (* os.getenv *)
  http_get_page : string -> http_outcome page;            (* GET of an HTML page *)
  http_get_json : string -> http_outcome (result json);   (* GET, with what resp.json() does *)
  http_post : nat -> string -> string -> http_outcome unit;
                               (* the n-th POST of the run, to url, with body *)
  file_write : write_outcome
}.

Record state : Type := State {
  trace : list event;      (* events so far, oldest first *)
  posts_made : nat;
  cache : file_state
}.

(** ** The monad of a run: state passing with Python exceptions *)

Definition M (A : Type) : Type := state -> result A * state.

Definition ret {A} (a : A) : M A := fun s => (Ok a, s).

Definition bind {A B} (m : M A) (k : A -> M B) : M B :=
  fun s => match m s with
           | (Ok a, s') => k a s'
           | (Raise e, s') => (Raise e, s')
           end.

Definition raise {A} (e : exn) : M A := fun s => (Raise e, s).

(** [try: body  except Exception as exc: handler(exc)] *)
Definition try_except {A} (body : M A) (handler : exn -> M A) : M A :=
  fun s => match body s with
           | (Ok a, s') => (Ok a, s')
           | (Raise e, s') => handler e s'
           end.

Notation "x <- m ;; k" := (bind m (fun x => k))
  (at level 61, m at next level, right associativity).
Notation "m ;;; k" := (bind m (fun _ => k))
  (at level 61, right associativity).

Definition emit (e : event) : M unit :=
  fun s => (Ok tt, State (trace s ++ [e]) (posts_made s) (cache s)).

Definition print (line : string) : M unit := emit (EStdout line).
Definition eprint (line : string) : M unit := emit (EStderr line).

Definition initial (f : file_state) : state := State [] 0 f.

(** [response.raise_for_status()] *)
Definition raise_for_status {A} (r : response A) : M unit :=
  if is_http_error (status_code r) then raise (Exn "HTTPError" (http_error r))
  else ret tt.

Definition attribute_error (attr : string) : exn := Exn "AttributeError" attr.
Definition type_error (what : string) : exn := Exn "TypeError" what.

(** [v.get(key, default)]: only a dict has [get]. *)
Definition py_get (v : json) (key : string) (default : json) : M json :=
  match v with
  | JObj fields => ret (dict_get fields key default)
  | _ => raise (attribute_error "get")
  end.

Fixpoint chars (s : string) : list json :=
  match s with
  | EmptyString => []
  | String c r => JStr (String c EmptyString) :: chars r
  end.

(** What [for x in v] iterates over: the items of a list, the keys of a dict,
    the characters of a string; nothing else is iterable. *)
Definition py_iter (v : json) : M (list json) :=
  match v with
  | JArr items => ret items
  | JObj fields => ret (map (fun kv => JStr (fst kv)) fields)
  | JStr s => ret (chars s)
  | _ => raise (type_error "not iterable")
  end.

(** ** The requests library against the world *)

Section Requests.
Variable w : world.

(** [requests.get(url, timeout=30)] of an HTML page. *)
Definition requests_get_page (url : string) : M (response page) :=
  match http_get_page w url with
  | HttpRaises e => raise e
  | HttpResponse r => ret r
  end.

(** [requests.get(url, timeout=30)] of a JSON endpoint. *)
Definition requests_get_json (url : string) : M (response (result json)) :=
  match http_get_json w url with
  | HttpRaises e => raise e
  | HttpResponse r => ret r
  end.

(** [resp.json()] *)
Definition resp_json (r : response (result json)) : M json :=
  match payload r with
  | Ok data => ret data
  | Raise e => raise e
  end.

(** [requests.post(url, data=body, timeout=timeout)]: the request is made,
    then the library raises or hands back the response. *)
Definition requests_post (url body : string) (timeout : nat) : M (response unit) :=
  fun s =>
    let s' := State (trace s ++ [EPost url body timeout]) (S (posts_made s)) (cache s) in
    match http_post w (posts_made s) url body with
    | HttpRaises e => (Raise e, s')
    | HttpResponse r => (Ok r, s')
    end.

(** [os.getenv(name)] with the fallback of both scripts' [get_env]. *)
Definition get_env (name : string) (default : option string) : option string :=
  match getenv w name with
  | Some value => Some value
  | None => default
  end.

End Requests.

(** ** monitor.py: the page/variant checker *)

Module Monitor.

Definition collection_url : string :=
  "https://store.dead.net/collections/united-states-of-dead".

Definition store_origin : string := "https://store.dead.net".

(** The loop of [find_product_page] over [soup.find_all("a", href=True)]. *)
Fixpoint first_matching_link (state_keyword : string) (links : list link)
  : option string :=
  match links with
  | [] => None
  | l :: rest =>
      let text := PyStr.lower (link_text l) in
      if PyStr.str_in (PyStr.lower state_keyword) text then
        let href := link_href l in
        (* Build full URL if necessary *)
        if PyStr.startswith href "/" then Some (store_origin ++ href)
        else Some href
      else first_matching_link state_keyword rest
  end.

(** The loop of [check_variant_available] over the variants. *)
Fixpoint scan_variants (size_keyword : string) (variants : list json) : M json :=
  match variants with
  | [] => ret JNull
  | variant :: rest =>
      t <- py_get variant "title" (JStr "") ;;
      match t with
      | JStr s =>
          let title := PyStr.lower s in
          if PyStr.str_in (PyStr.lower size_keyword) title then
            py_get variant "available" (JBool false)
          else scan_variants size_keyword rest
      | _ => raise (attribute_error "lower")
      end
  end.

(** The four message templates of [main]. *)
Definition msg_page_missing (state_keyword : string) : string :=
  PyStr.title state_keyword ++ " shirt page is not yet available.".

Definition msg_variant_missing (state_keyword size_keyword : string) : string :=
  PyStr.title state_keyword ++ " product found, but the "
    ++ PyStr.title size_keyword ++ " variant is missing.".

Definition msg_available (state_keyword size_keyword product_url : string) : string :=
  PyStr.title state_keyword ++ " " ++ PyStr.title size_keyword
    ++ " is available! " ++ product_url.

Definition msg_sold_out (state_keyword size_keyword product_url : string) : string :=
  PyStr.title state_keyword ++ " " ++ PyStr.title size_keyword
    ++ " is currently sold out. " ++ product_url.

Section Run.
Variable w : world.

Definition find_product_page (state_keyword : string) : M (option string) :=
  fetched <- try_except
               (response <- requests_get_page w collection_url ;;
                raise_for_status response ;;;
                ret (Some response))
               (fun exc =>
                  eprint ("Error fetching collection page: " ++ exn_text exc) ;;;
                  ret None) ;;
  match fetched with
  | None => ret None
  | Some response =>
      ret (first_matching_link state_keyword (page_links (payload response)))
  end.

Definition check_variant_available (product_url size_keyword : string) : M json :=
  let json_url := PyStr.rstrip_slash product_url ++ ".json" in
  fetched <- try_except
               (resp <- requests_get_json w json_url ;;
                raise_for_status resp ;;;
                data <- resp_json resp ;;
                ret (Some data))
               (fun exc =>
                  eprint ("Error fetching product JSON: " ++ exn_text exc) ;;;
                  ret None) ;;
  match fetched with
  | None => ret JNull
  | Some data =>
      product <- py_get data "product" JNull ;;
      if negb (json_truthy product) then ret JNull
      else
        variants <- py_get product "variants" (JArr []) ;;
        items <- py_iter variants ;;
        scan_variants size_keyword items
  end.

Definition send_notification (topic : option string) (message : string) : M unit :=
  match topic with
  | Some t =>
      if PyStr.truthy t then
        try_except
          (requests_post w ("https://ntfy.sh/" ++ t) message 10 ;;; ret tt)
          (fun exc => eprint ("Error sending notification: " ++ exn_text exc))
      else print message
  | None => print message
  end.

Definition main : M unit :=
  match get_env w "STATE_KEYWORD" (Some "indiana"),
        get_env w "SIZE_KEYWORD" (Some "large") with
  | Some state_keyword, Some size_keyword =>
      let ntfy_topic := get_env w "NTFY_TOPIC" None in
      found <- find_product_page state_keyword ;;
      match found with
      | Some product_url =>
          if PyStr.truthy product_url then
            available <- check_variant_available product_url size_keyword ;;
            if is_none available then
              send_notification ntfy_topic
                (msg_variant_missing state_keyword size_keyword)
            else if json_truthy available then
              send_notification ntfy_topic
                (msg_available state_keyword size_keyword product_url)
            else
              send_notification ntfy_topic
                (msg_sold_out state_keyword size_keyword product_url)
          else send_notification ntfy_topic (msg_page_missing state_keyword)
      | None => send_notification ntfy_topic (msg_page_missing state_keyword)
      end
  | _, _ => raise (attribute_error "title")  (* never: both defaults are strings *)
  end.

End Run.
End Monitor.

(** ** store_monitor.py: the catalog novelty detector *)

Module StoreMonitor.

Definition listing_url : string :=
  "https://store.dead.net/collections/all?sort_by=created-descending".

Definition cache_file : string := ".store_monitor_cache.json".

Definition skip_notice : string :=
  "NTFY_STORE_TOPIC is not set. Skipping notification.".

Definition msg_new_product (title : string) : string :=
  "New product added: " ++ title.

(** [a or b] on two [str | None] values. *)
Definition py_or (a b : option string) : option string :=
  if PyStr.truthy_opt a then a else b.

(** [t in last_seen], for whatever [json.load] returned: equality with an
    item of a list, with a key of a dict, substring of a string; any other
    value is not a container. *)
Definition py_contains (container : json) (t : string) : M bool :=
  match container with
  | JArr items =>
      ret (existsb (fun v => match v with JStr s => String.eqb s t | _ => false end) items)
  | JObj fields => ret (existsb (fun kv => String.eqb (fst kv) t) fields)
  | JStr s => ret (PyStr.str_in t s)
  | _ => raise (type_error "not iterable")
  end.

(** [[t for t in product_titles if t not in last_seen]] *)
Fixpoint new_titles_of (product_titles : list string) (last_seen : json)
  : M (list string) :=
  match product_titles with
  | [] => ret []
  | t :: rest =>
      seen <- py_contains last_seen t ;;
      more <- new_titles_of rest last_seen ;;
      ret (if seen then more else t :: more)
  end.

(** [os.path.exists(cache_file)] *)
Definition os_path_exists : M bool :=
  fun s => (Ok (match cache s with FAbsent => false | _ => true end), s).

(** [with open(cache_file, "r") as f: json.load(f)] *)
Definition load_cache : M json :=
  fun s => match cache s with
           | FAbsent => (Raise (Exn "FileNotFoundError" cache_file), s)
           | FUnreadable e => (Raise e, s)
           | FMalformed e => (Raise e, s)
           | FJson v => (Ok v, s)
           end.

Section Run.
Variable w : world.

(** [with open(cache_file, "w") as f: json.dump(titles, f)] *)
Definition dump_cache (titles : list string) : M unit :=
  fun s =>
    let tr := (trace s ++ [EWrite cache_file titles])%list in
    match file_write w with
    | WriteOk => (Ok tt, State tr (posts_made s) (FJson (JArr (map JStr titles))))
    | WriteOpenFails e => (Raise e, State tr (posts_made s) (cache s))
    | WriteDumpFails e parse_error =>
        (Raise e, State tr (posts_made s) (FMalformed parse_error))
    end.

Definition fetch_product_titles : M (list string) :=
  fetched <- try_except
               (response <- requests_get_page w listing_url ;;
                raise_for_status response ;;;
                ret (Some response))
               (fun exc =>
                  eprint ("Error fetching store page: " ++ exn_text exc) ;;;
                  ret None) ;;
  match fetched with
  | None => ret []
  | Some response =>
      (* every h2/h3 whose stripped text is non-empty, in document order *)
      ret (filter PyStr.truthy (page_headings (payload response)))
  end.

Definition send_notification (topic : option string) (message : string) : M bool :=
  match topic with
  | Some t =>
      if PyStr.truthy t then
        try_except
          (r <- requests_post w ("https://ntfy.sh/" ++ t) message 30 ;;
           raise_for_status r ;;;
           ret true)
          (fun exc =>
             eprint ("Error sending notification: " ++ exn_text exc) ;;;
             ret false)
      else eprint skip_notice ;;; ret false
  | None => eprint skip_notice ;;; ret false
  end.

(** [for title in new_titles: send_notification(topic, f"New product added: {title}")] *)
Fixpoint notify_each (topic : option string) (new_titles : list string) : M unit :=
  match new_titles with
  | [] => ret tt
  | title :: rest =>
      send_notification topic (msg_new_product title) ;;;
      notify_each topic rest
  end.

Definition main : M unit :=
  let topic := py_or (get_env w "NTFY_STORE_TOPIC" None) (get_env w "NTFY_TOPIC" None) in
  product_titles <- fetch_product_titles ;;
  match product_titles with
  | [] => ret tt
  | _ :: _ =>
      last_seen <- (there <- os_path_exists ;;
                    if there then try_except load_cache (fun _ => ret (JArr []))
                    else ret (JArr [])) ;;
      (* Determine new product titles not seen in previous run *)
      new_titles <- new_titles_of product_titles last_seen ;;
      match new_titles with
      | [] => ret tt
      | _ :: _ =>
          notify_each topic new_titles ;;;
          (* update cache with current titles (limit to first 50) *)
          try_except
            (dump_cache (firstn 50 product_titles))
            (fun exc => eprint ("Error writing cache file: " ++ exn_text exc))
      end
  end.

End Run.
End StoreMonitor.

(** ** Vocabulary of the properties *)

(** The POST requests of a trace, oldest first: where to, and what. *)
Fixpoint posted (tr : list event) : list (string * string) :=
  match tr with
  | [] => []
  | EPost url body _ :: rest => (url, body) :: posted rest
  | _ :: rest => posted rest
  end.

(** The attempts of a trace to rewrite the cache file. *)
Fixpoint writes (tr : list event) : list (list string) :=
  match tr with
  | [] => []
  | EWrite _ titles :: rest => titles :: writes rest
  | _ :: rest => writes rest
  end.

(** The lines a trace sends to the error stream, and to stdout. *)
Fixpoint stderr_lines (tr : list event) : list string :=
  match tr with
  | [] => []
  | EStderr line :: rest => line :: stderr_lines rest
  | _ :: rest => stderr_lines rest
  end.

Fixpoint stdout_lines (tr : list event) : list string :=
  match tr with
  | [] => []
  | EStdout line :: rest => line :: stdout_lines rest
  | _ :: rest => stdout_lines rest
  end.

(** The cache file holding a snapshot: a JSON array of titles. *)
Definition snapshot (titles : list string) : file_state :=
  FJson (JArr (map JStr titles)).

(** [t in previous] on a list of titles. *)
Definition seen_in (previous : list string) (t : string) : bool :=
  existsb (String.eqb t) previous.

(** The new titles as the specification words them:
    [[t for t in current if t not in previous]]. *)
Definition spec_new (current previous : list string) : list string :=
  filter (fun t => negb (seen_in previous t)) current.

(** The delivery endpoint of a channel. *)
Definition ntfy_url (topic : string) : string := "https://ntfy.sh/" ++ topic.

(** What the listing fetch of the novelty detector yields in a world: the
    titles, and what it logs. *)
Definition listing_titles (w : world) : list string :=
  match http_get_page w StoreMonitor.listing_url with
  | HttpRaises _ => []
  | HttpResponse r =>
      if is_http_error (status_code r) then []
      else filter PyStr.truthy (page_headings (payload r))
  end.

Definition listing_log (w : world) : list event :=
  match http_get_page w StoreMonitor.listing_url with
  | HttpRaises e => [EStderr ("Error fetching store page: " ++ exn_text e)]
  | HttpResponse r =>
      if is_http_error (status_code r)
      then [EStderr ("Error fetching store page: " ++ http_error r)]
      else []
  end.

(** The channel the novelty detector resolves from the environment. *)
Definition store_topic (w : world) : option string :=
  StoreMonitor.py_or (get_env w "NTFY_STORE_TOPIC" None) (get_env w "NTFY_TOPIC" None).

(** A stored snapshot, when the file holds one, has at most 50 entries. *)
Definition snapshot_bounded (f : file_state) : Prop :=
  forall items, f = FJson (JArr items) -> length items <= 50.

(** What the novelty detector takes as [last_seen] from the cache file:
    the parsed content, or the empty list when the file is absent,
    unreadable or does not parse. *)
Definition last_seen_of (f : file_state) : json :=
  match f with
  | FJson v => v
  | _ => JArr []
  end.

(** The cache update of the novelty detector, with its handler. *)
Definition persist (w : world) (product_titles : list string) : M unit :=
  try_except
    (StoreMonitor.dump_cache w (firstn 50 product_titles))
    (fun exc => eprint ("Error writing cache file: " ++ exn_text exc)).

(** The cache file after a run that found new titles. *)
Definition cache_after_write (w : world) (before : file_state)
    (product_titles : list string) : file_state :=
  match file_write w with
  | WriteOk => snapshot (firstn 50 product_titles)
  | WriteOpenFails _ => before
  | WriteDumpFails _ parse_error => FMalformed parse_error
  end.

(** The cache file could not be read: it is absent, unreadable or malformed. *)
Definition read_fails (f : file_state) : Prop :=
  match f with
  | FJson _ => False
  | _ => True
  end.

(** Sample worlds, used to run the two scripts on concrete inputs. *)
Definition env_with_topic (topic : string) : string -> option string :=
  fun name => if String.eqb name "NTFY_TOPIC" then Some topic else None.

Definition sample_listing : page :=
  Page [Link "Ohio Tee" "/products/ohio-tee";
        Link "Indiana Tee" "/products/indiana-tee"]
       ["Indiana Tee"; ""; "Ohio Tee"].

Definition sample_product : json :=
  JObj [("product",
         JObj [("variants",
                JArr [JObj [("title", JStr "Small"); ("available", JBool true)];
                      JObj [("title", JStr "X-Large")];
                      JObj [("title", JStr "Large"); ("available", JBool true)]])])].

Definition sample_world : world :=
  World (env_with_topic "deadshirts")
        (fun _ => HttpResponse (Response 200 "" sample_listing))
        (fun _ => HttpResponse (Response 200 "" (Ok sample_product)))
        (fun _ _ _ => HttpResponse (Response 200 "" tt))
        WriteOk.

(** The same world with no channel configured. *)
Definition quiet_world : world :=
  World (fun _ => None) (http_get_page sample_world) (http_get_json sample_world)
        (http_post sample_world) WriteOk.

(** The cache file after a sequence of runs, each in its own world. *)
Fixpoint cache_after_runs (ws : list world) (f : file_state) : file_state :=
  match ws with
  | [] => f
  | w :: rest => cache_after_runs rest (cache (snd (StoreMonitor.main w (initial f))))
  end.

(** A listing of sixty distinct titles. *)
Definition sixty_titles : list string :=
  map (fun n => String (ascii_of_nat (48 + n / 10)) (String (ascii_of_nat (48 + n mod 10)) ""))
      (seq 0 60).

Definition sixty_world : world :=
  World (env_with_topic "deadshirts")
        (fun _ => HttpResponse (Response 200 "" (Page [] sixty_titles)))
        (http_get_json sample_world) (http_post sample_world) WriteOk.

(** A world whose listing fetch times out. *)
Definition offline_world : world :=
  World (env_with_topic "deadshirts")
        (fun _ => HttpRaises (Exn "ReadTimeout" "Read timed out."))
        (fun _ => HttpRaises (Exn "ReadTimeout" "Read timed out."))
        (fun _ _ _ => HttpRaises (Exn "ReadTimeout" "Read timed out."))
        WriteOk.

(** The messages a trace of the checker delivers: what it prints to stdout
    (no channel) and the bodies it posts (a channel), oldest first. *)
Fixpoint notified (tr : list event) : list string :=
  match tr with
  | [] => []
  | EStdout line :: rest => line :: notified rest
  | EPost _ body _ :: rest => body :: notified rest
  | _ :: rest => notified rest
  end.

(** The configuration the checker reads from the environment. *)
Definition state_keyword_of (w : world) : string :=
  match getenv w "STATE_KEYWORD" with Some v => v | None => "indiana" end.

Definition size_keyword_of (w : world) : string :=
  match getenv w "SIZE_KEYWORD" with Some v => v | None => "large" end.

Definition monitor_topic (w : world) : option string := get_env w "NTFY_TOPIC" None.

(** What the collection fetch of the checker yields in a world: the links
    it goes on to scan (none when the fetch fails), and what it logs. *)
Definition collection_links (w : world) : list link :=
  match http_get_page w Monitor.collection_url with
  | HttpRaises _ => []
  | HttpResponse r =>
      if is_http_error (status_code r) then [] else page_links (payload r)
  end.

Definition collection_log (w : world) : list event :=
  match http_get_page w Monitor.collection_url with
  | HttpRaises e => [EStderr ("Error fetching collection page: " ++ exn_text e)]
  | HttpResponse r =>
      if is_http_error (status_code r)
      then [EStderr ("Error fetching collection page: " ++ http_error r)]
      else []
  end.

(** The page the checker resolves for a state keyword. *)
Definition resolved_page (w : world) (state_keyword : string) : option string :=
  Monitor.first_matching_link state_keyword (collection_links w).

(** The product data endpoint of a product page. *)
Definition json_url_of (product_url : string) : string :=
  PyStr.rstrip_slash product_url ++ ".json".

(** The ways the product data fetch of [check_variant_available] ends. *)
Inductive product_fetch : Type :=
  | FetchFailed (line : string)   (* the except branch ran and logged line *)
  | Fetched (data : json).

Definition product_fetch_of (w : world) (product_url : string) : product_fetch :=
  match http_get_json w (json_url_of product_url) with
  | HttpRaises e => FetchFailed ("Error fetching product JSON: " ++ exn_text e)
  | HttpResponse r =>
      if is_http_error (status_code r)
      then FetchFailed ("Error fetching product JSON: " ++ http_error r)
      else match payload r with
           | Ok data => Fetched data
           | Raise e => FetchFailed ("Error fetching product JSON: " ++ exn_text e)
           end
  end.

(** A variant as the product data contract has it, whose title does not
    contain the size keyword: an object whose [title] (the empty string
    when absent) is a string without the lower-cased keyword. *)
Definition other_size (size_keyword : string) (variant : json) : Prop :=
  exists fields title,
    variant = JObj fields
    /\ dict_get fields "title" (JStr "") = JStr title
    /\ PyStr.str_in (PyStr.lower size_keyword) (PyStr.lower title) = false.

(** Product data with a variant list: an object whose [product] is an
    object (non-empty, as it holds [variants]) whose [variants] is a list. *)
Definition has_variants (data : json) (variants : list json) : Prop :=
  exists fields product_fields,
    data = JObj fields
    /\ dict_get fields "product" JNull = JObj product_fields
    /\ product_fields <> []
    /\ dict_get product_fields "variants" (JArr []) = JArr variants.

(** Product data without a product: an object whose [product] is absent or
    falsy (null, empty). *)
Definition product_missing (data : json) : Prop :=
  exists fields,
    data = JObj fields
    /\ json_truthy (dict_get fields "product" JNull) = false.

(** A collection page whose matching link has a path-relative href; the
    requests library refuses a URL without a scheme. *)
Definition relative_href_world : world :=
  World (env_with_topic "deadshirts")
        (fun _ => HttpResponse
                    (Response 200 ""
                       (Page [Link "Ohio Tee" "/products/ohio-tee";
                              Link "Indiana Tee" "products/indiana-tee"] [])))
        (fun url => HttpRaises
                      (Exn "MissingSchema" ("Invalid URL '" ++ url ++ "': No scheme supplied.")))
        (fun _ _ _ => HttpResponse (Response 200 "" tt))
        WriteOk.

(** A world whose delivery endpoint answers every POST with a server error. *)
Definition rejecting_world : world :=
  World (env_with_topic "deadshirts")
        (http_get_page sample_world) (http_get_json sample_world)
        (fun _ url _ =>
           HttpResponse (Response 500 ("500 Server Error: Internal Server Error for url: " ++ url) tt))
        WriteOk.

(** Product data whose only matching variant has no [available] field. *)
Definition unlabelled_product : json :=
  JObj [("product",
         JObj [("variants",
                JArr [JObj [("title", JStr "Small"); ("available", JBool true)];
                      JObj [("title", JStr "Large")]])])].

Definition unlabelled_world : world :=
  World (env_with_topic "deadshirts")
        (http_get_page sample_world)
        (fun _ => HttpResponse (Response 200 "" (Ok unlabelled_product)))
        (http_post sample_world) WriteOk.

(** A link whose text does not contain the state keyword. *)
Definition other_state (state_keyword : string) (l : link) : Prop :=
  PyStr.str_in (PyStr.lower state_keyword) (PyStr.lower (link_text l)) = false.

(** What [find_product_page] makes of the href of the link it selects. *)
Definition resolve_href (href : string) : string :=
  if PyStr.startswith href "/" then Monitor.store_origin ++ href else href.

(** The steps of [main] of the checker after a page was resolved. *)
Definition report_variant (w : world) (state_keyword size_keyword product_url : string)
  : M unit :=
  available <- Monitor.check_variant_available w product_url size_keyword ;;
  if is_none available then
    Monitor.send_notification w (monitor_topic w)
      (Monitor.msg_variant_missing state_keyword size_keyword)
  else if json_truthy available then
    Monitor.send_notification w (monitor_topic w)
      (Monitor.msg_available state_keyword size_keyword product_url)
  else
    Monitor.send_notification w (monitor_topic w)
      (Monitor.msg_sold_out state_keyword size_keyword product_url).

(** The three conditions under which the availability check finds no
    variant: the fetch (or its parse) failed, the product is missing from
    the data, or no variant of the list has the size in its title. *)
Definition no_variant_found (w : world) (product_url size_keyword : string) : Prop :=
  (exists line, product_fetch_of w product_url = FetchFailed line)
  \/ (exists data,
        product_fetch_of w product_url = Fetched data /\ product_missing data)
  \/ (exists data variants,
        product_fetch_of w product_url = Fetched data
        /\ has_variants data variants
        /\ Forall (other_size size_keyword) variants).

(** The sample world without a channel, with a given answer of the product
    data endpoint. *)
Definition world_answering (outcome : http_outcome (result json)) : world :=
  World (fun _ => None) (http_get_page sample_world) (fun _ => outcome)
        (http_post sample_world) WriteOk.

(** A text contains a keyword, case aside: the lower-cased keyword is a
    contiguous part of the lower-cased text. *)
Definition contains_keyword (keyword text : string) : Prop :=
  exists before after,
    PyStr.lower text = before ++ PyStr.lower keyword ++ after.

(** An environment given by its variables. *)
Fixpoint env_of (vars : list (string * string)) (name : string) : option string :=
  match vars with
  | [] => None
  | (k, v) :: rest => if String.eqb k name then Some v else env_of rest name
  end.

(** The sample world under another environment. *)
Definition sample_world_with (vars : list (string * string)) : world :=
  World (env_of vars) (http_get_page sample_world) (http_get_json sample_world)
        (http_post sample_world) WriteOk.

(** A collection page whose matching link has an empty href. *)
Definition empty_href_world : world :=
  World (fun _ => None)
        (fun _ => HttpResponse
                    (Response 200 ""
                       (Page [Link "Ohio Tee" "/products/ohio-tee";
                              Link "Indiana Tee" "";
                              Link "Indiana Hoodie" "/products/indiana-hoodie"] [])))
        (http_get_json sample_world) (http_post sample_world) WriteOk.

(** The sample world on a file system that refuses, or tears, the write. *)
Definition readonly_world : world :=
  World (env_with_topic "deadshirts") (http_get_page sample_world)
        (http_get_json sample_world) (http_post sample_world)
        (WriteOpenFails (Exn "PermissionError" "[Errno 13] Permission denied")).

Definition torn_world : world :=
  World (env_with_topic "deadshirts") (http_get_page sample_world)
        (http_get_json sample_world) (http_post sample_world)
        (WriteDumpFails (Exn "OSError" "[Errno 28] No space left on device")
                        (Exn "JSONDecodeError" "Unterminated string")).


(** The message of the novelty detector for a title, with where it goes. *)
Definition new_product_post (topic title : string) : string * string :=
  ("https://ntfy.sh/" ++ topic, "New product added: " ++ title).

(** Extending a state's trace. *)
Definition logged (s : state) (evs : list event) : state :=
  State (trace s ++ evs) (posts_made s) (cache s).

(** ** Generic facts *)

Lemma posted_app (a b : list event) : posted (a ++ b) = (posted a ++ posted b)%list.
Proof.
  induction a as [|e a IH]; simpl; [reflexivity|].
  destruct e; simpl; rewrite IH; reflexivity.
Qed.

Lemma writes_app (a b : list event) : writes (a ++ b) = (writes a ++ writes b)%list.
Proof.
  induction a as [|e a IH]; simpl; [reflexivity|].
  destruct e; simpl; rewrite IH; reflexivity.
Qed.

Lemma seen_in_spec (previous : list string) (t : string) :
  seen_in previous t = true <-> In t previous.
Proof.
  unfold seen_in. rewrite existsb_exists. split.
  - intros [x [Hin Heq]]. apply String.eqb_eq in Heq. subst. exact Hin.
  - intros Hin. exists t. split; [exact Hin | apply String.eqb_refl].
Qed.

Lemma spec_new_In (current previous : list string) (t : string) :
  In t (spec_new current previous) <-> In t current /\ ~ In t previous.
Proof.
  unfold spec_new. rewrite filter_In, negb_true_iff.
  pose proof (seen_in_spec previous t) as Hs.
  destruct (seen_in previous t); intuition congruence.
Qed.

Lemma firstn_50_bounded (titles : list string) :
  snapshot_bounded (snapshot (firstn 50 titles)).
Proof.
  intros items H.
  assert (items = map JStr (firstn 50 titles)) as -> by (unfold snapshot in H; congruence).
  rewrite length_map. apply firstn_le_length.
Qed.

Lemma logged_nil (s : state) : logged s [] = s.
Proof. destruct s. unfold logged. simpl. rewrite app_nil_r. reflexivity. Qed.


(** ** The novelty detector, step by step *)

Section StoreSteps.
Variable w : world.

(** The listing fetch never raises: it yields the titles and at most logs. *)
Lemma fetch_product_titles_run (s : state) :
  StoreMonitor.fetch_product_titles w s
  = (Ok (listing_titles w), logged s (listing_log w)).
Proof.
  unfold StoreMonitor.fetch_product_titles, listing_titles, listing_log,
    requests_get_page, raise_for_status, bind, try_except, eprint, emit, ret, raise.
  destruct (http_get_page w StoreMonitor.listing_url) as [e | r]; simpl.
  - reflexivity.
  - destruct (is_http_error (status_code r)); simpl.
    + reflexivity.
    + rewrite logged_nil. reflexivity.
Qed.

(** One call of the notifier: it returns, it never touches the cache file,
    and it makes one POST exactly when a channel is configured. *)
Lemma store_send_notification_run (topic : option string) (message : string) (s : state) :
  exists (b : bool) (evs : list event),
    StoreMonitor.send_notification w topic message s
    = (Ok b, State (trace s ++ evs) (posts_made s + length (posted evs)) (cache s))
    /\ writes evs = []
    /\ (PyStr.truthy_opt topic = false ->
        evs = [EStderr StoreMonitor.skip_notice] /\ b = false)
    /\ (forall t, topic = Some t -> PyStr.truthy t = true ->
        posted evs = [(ntfy_url t, message)]).
Proof.
  unfold StoreMonitor.send_notification.
  destruct topic as [t|]; [destruct (PyStr.truthy t) eqn:Ht|].
  - unfold try_except, bind, requests_post, raise_for_status, eprint, emit, ret, raise.
    destruct (http_post w (posts_made s) ("https://ntfy.sh/" ++ t) message) as [e | r] eqn:Hp;
      simpl; [|destruct (is_http_error (status_code r)) eqn:Hc; simpl].
    + exists false, [EPost ("https://ntfy.sh/" ++ t) message 30;
                     EStderr ("Error sending notification: " ++ exn_text e)].
      simpl. rewrite <- app_assoc, Nat.add_1_r. simpl.
      split; [reflexivity | split; [reflexivity | split]].
      * rewrite Ht. discriminate.
      * intros t' Ht' _. injection Ht' as <-. reflexivity.
    + exists false, [EPost ("https://ntfy.sh/" ++ t) message 30;
                     EStderr ("Error sending notification: " ++ http_error r)].
      simpl. rewrite <- app_assoc, Nat.add_1_r. simpl.
      split; [reflexivity | split; [reflexivity | split]].
      * rewrite Ht. discriminate.
      * intros t' Ht' _. injection Ht' as <-. reflexivity.
    + exists true, [EPost ("https://ntfy.sh/" ++ t) message 30].
      simpl. rewrite Nat.add_1_r.
      split; [reflexivity | split; [reflexivity | split]].
      * rewrite Ht. discriminate.
      * intros t' Ht' _. injection Ht' as <-. reflexivity.
  - exists false, [EStderr StoreMonitor.skip_notice].
    unfold bind, eprint, emit, ret. simpl. rewrite Nat.add_0_r.
    split; [reflexivity | split; [reflexivity | split]].
    + auto.
    + intros t' Ht' Htt. injection Ht' as <-. congruence.
  - exists false, [EStderr StoreMonitor.skip_notice].
    unfold bind, eprint, emit, ret. simpl. rewrite Nat.add_0_r.
    split; [reflexivity | split; [reflexivity | split]].
    + auto.
    + discriminate.
Qed.

(** The loop over the new titles: one call per title, in order. *)
Lemma notify_each_run (topic : option string) (titles : list string) (s : state) :
  exists evs : list event,
    StoreMonitor.notify_each w topic titles s
    = (Ok tt, State (trace s ++ evs) (posts_made s + length (posted evs)) (cache s))
    /\ writes evs = []
    /\ (PyStr.truthy_opt topic = false ->
        evs = map (fun _ => EStderr StoreMonitor.skip_notice) titles)
    /\ (forall t, topic = Some t -> PyStr.truthy t = true ->
        posted evs
        = map (fun title => (ntfy_url t, StoreMonitor.msg_new_product title)) titles).
Proof.
  revert s. induction titles as [|title rest IH]; intros s.
  - exists []. simpl. unfold ret. rewrite app_nil_r, Nat.add_0_r.
    destruct s; simpl.
    split; [reflexivity | split; [reflexivity | split]]; intros; reflexivity.
  - destruct (store_send_notification_run topic (StoreMonitor.msg_new_product title) s)
      as (b & e1 & Hrun & Hw1 & Hoff & Hon).
    destruct (IH (State (trace s ++ e1) (posts_made s + length (posted e1)) (cache s)))
      as (e2 & Hrest & Hw2 & Hoff2 & Hon2).
    exists (e1 ++ e2)%list. simpl. unfold bind at 1. rewrite Hrun, Hrest. simpl.
    rewrite posted_app, writes_app, length_app, Hw1, Hw2, <- app_assoc, Nat.add_assoc.
    split; [reflexivity | split; [reflexivity | split]].
    + intros Hf. destruct (Hoff Hf) as [-> _]. rewrite (Hoff2 Hf). reflexivity.
    + intros t Ht Htt. rewrite (Hon t Ht Htt), (Hon2 t Ht Htt). reflexivity.
Qed.

Lemma in_snapshot_items (previous : list string) (t : string) :
  existsb (fun v => match v with JStr s => String.eqb s t | _ => false end)
    (map JStr previous)
  = seen_in previous t.
Proof.
  unfold seen_in. induction previous as [|p ps IHp]; simpl; [reflexivity|].
  rewrite IHp, (String.eqb_sym p t). reflexivity.
Qed.

(** Against a snapshot, the comprehension is the membership filter. *)
Lemma new_titles_of_snapshot (current previous : list string) (s : state) :
  StoreMonitor.new_titles_of current (JArr (map JStr previous)) s
  = (Ok (spec_new current previous), s).
Proof.
  induction current as [|t rest IH]; simpl; [reflexivity|].
  unfold bind, ret in *. simpl. rewrite IH, in_snapshot_items. simpl.
  destruct (seen_in previous t); reflexivity.
Qed.

End StoreSteps.

(** ** A whole run of the novelty detector *)

Section StoreRun.
Variable w : world.

(** A run whose cache file yields a list of titles (a stored snapshot, or
    the empty list after a failed read). *)
Lemma store_main_run (s : state) (previous : list string) :
  last_seen_of (cache s) = JArr (map JStr previous) ->
  StoreMonitor.main w s
  = match listing_titles w with
    | [] => (Ok tt, logged s (listing_log w))
    | _ :: _ =>
        match spec_new (listing_titles w) previous with
        | [] => (Ok tt, logged s (listing_log w))
        | new =>
            (StoreMonitor.notify_each w (store_topic w) new ;;;
             persist w (listing_titles w)) (logged s (listing_log w))
        end
    end.
Proof.
  intros Hprev. unfold StoreMonitor.main.
  unfold bind at 1. rewrite fetch_product_titles_run.
  destruct (listing_titles w) as [|t0 rest] eqn:Hcur; [reflexivity|].
  unfold bind at 1.
  assert ((there <- StoreMonitor.os_path_exists ;;
           if there
           then try_except StoreMonitor.load_cache (fun _ => ret (JArr []))
           else ret (JArr [])) (logged s (listing_log w))
          = (Ok (JArr (map JStr previous)), logged s (listing_log w))) as ->.
  { rewrite <- Hprev.
    unfold bind, StoreMonitor.os_path_exists, StoreMonitor.load_cache, try_except, ret, logged.
    simpl. destruct (cache s); reflexivity. }
  unfold bind at 1. rewrite new_titles_of_snapshot.
  destruct (spec_new (t0 :: rest) previous); reflexivity.
Qed.

(** The cache update: what it leaves in the file and in the trace. *)
Lemma persist_run (titles : list string) (s : state) :
  exists evs : list event,
    persist w titles s
    = (Ok tt,
       State (trace s ++ EWrite StoreMonitor.cache_file (firstn 50 titles) :: evs)
         (posts_made s)
         (cache_after_write w (cache s) titles))
    /\ posted evs = [] /\ writes evs = []
    /\ (file_write w = WriteOk -> evs = []).
Proof.
  unfold persist, try_except, StoreMonitor.dump_cache, eprint, emit, cache_after_write.
  destruct (file_write w) as [|e|e pe]; simpl.
  - exists []. auto.
  - exists [EStderr ("Error writing cache file: " ++ exn_text e)].
    rewrite <- app_assoc. simpl. repeat split. discriminate.
  - exists [EStderr ("Error writing cache file: " ++ exn_text e)].
    rewrite <- app_assoc. simpl. repeat split. discriminate.
Qed.

Lemma listing_log_nil : listing_titles w <> [] -> listing_log w = [].
Proof.
  unfold listing_titles, listing_log.
  destruct (http_get_page w StoreMonitor.listing_url) as [e | r]; [congruence|].
  destruct (is_http_error (status_code r)); congruence.
Qed.

Lemma spec_new_nil (previous : list string) : spec_new [] previous = [].
Proof. reflexivity. Qed.

(** What a run does when the cache file yields a list of titles: it
    returns, and its events are the fetch log alone when nothing is new,
    and otherwise one notifier call per new title followed by one attempt
    to rewrite the cache file with the first 50 current titles. *)
Lemma store_main_effect (s : state) (previous : list string) :
  last_seen_of (cache s) = JArr (map JStr previous) ->
  exists evs : list event,
    StoreMonitor.main w s
    = (Ok tt,
       State (trace s ++ evs) (posts_made s + length (posted evs))
         (match spec_new (listing_titles w) previous with
          | [] => cache s
          | _ :: _ => cache_after_write w (cache s) (listing_titles w)
          end))
    /\ (spec_new (listing_titles w) previous = [] -> evs = listing_log w)
    /\ (spec_new (listing_titles w) previous <> [] ->
        exists sent logged_error,
          evs = (sent ++ EWrite StoreMonitor.cache_file (firstn 50 (listing_titles w))
                   :: logged_error)%list
          /\ writes sent = [] /\ writes logged_error = [] /\ posted logged_error = []
          /\ (file_write w = WriteOk -> logged_error = [])
          /\ (PyStr.truthy_opt (store_topic w) = false ->
              sent = map (fun _ => EStderr StoreMonitor.skip_notice)
                       (spec_new (listing_titles w) previous))
          /\ (forall t, store_topic w = Some t -> PyStr.truthy t = true ->
              posted sent
              = map (fun title => (ntfy_url t, StoreMonitor.msg_new_product title))
                  (spec_new (listing_titles w) previous))).
Proof.
  intros Hprev. rewrite (store_main_run s previous Hprev).
  assert (Hlog : posted (listing_log w) = []).
  { unfold listing_log. destruct (http_get_page w StoreMonitor.listing_url) as [e | r];
      [reflexivity | destruct (is_http_error (status_code r)); reflexivity]. }
  destruct (listing_titles w) as [|t0 rest] eqn:Hcur.
  - exists (listing_log w). rewrite spec_new_nil, Hlog, Nat.add_0_r.
    split; [reflexivity | split; [reflexivity | congruence]].
  - assert (Hnil : listing_log w = []) by (apply listing_log_nil; congruence).
    destruct (spec_new (t0 :: rest) previous) as [|n0 new] eqn:Hnew.
    + exists (listing_log w). rewrite Hlog, Nat.add_0_r.
      split; [reflexivity | split; [reflexivity | congruence]].
    + rewrite Hnil, logged_nil.
      destruct (notify_each_run w (store_topic w) (n0 :: new) s)
        as (sent & Hsent & Hws & Hoff & Hon).
      destruct (persist_run (t0 :: rest)
                  (State (trace s ++ sent) (posts_made s + length (posted sent)) (cache s)))
        as (err & Hper & Hpe & Hwe & Hok).
      exists (sent ++ EWrite StoreMonitor.cache_file (firstn 50 (t0 :: rest)) :: err)%list.
      unfold bind. rewrite Hsent, Hper.
      cbn [trace posts_made cache].
      rewrite posted_app. cbn [posted]. rewrite Hpe, app_nil_r, <- app_assoc.
      split; [reflexivity | split; [congruence|]].
      intros _. exists sent, err. auto 10.
Qed.

End StoreRun.

(** ** The cache file across a run, whatever it holds *)

Section StoreCache.
Variable w : world.

(** The comprehension only reads. *)
Lemma new_titles_of_state (current : list string) (last_seen : json) (s : state) :
  exists r, StoreMonitor.new_titles_of current last_seen s = (r, s).
Proof.
  induction current as [|t rest IH]; simpl.
  - exists (Ok []). reflexivity.
  - destruct IH as [r IH]. unfold bind, StoreMonitor.py_contains, ret, raise.
    destruct last_seen; simpl; eauto; rewrite IH; destruct r; eauto.
Qed.

(** A run leaves the cache file as it was, or as its one rewrite left it. *)
Lemma store_main_cache (s : state) :
  exists r s',
    StoreMonitor.main w s = (r, s')
    /\ (cache s' = cache s
        \/ cache s' = cache_after_write w (cache s) (listing_titles w)).
Proof.
  unfold StoreMonitor.main. unfold bind at 1. rewrite fetch_product_titles_run.
  destruct (listing_titles w) as [|t0 rest]; [eexists _, _; split; [reflexivity | left; reflexivity]|].
  unfold bind at 1.
  assert (exists v, (there <- StoreMonitor.os_path_exists ;;
           if there
           then try_except StoreMonitor.load_cache (fun _ => ret (JArr []))
           else ret (JArr [])) (logged s (listing_log w))
          = (Ok v, logged s (listing_log w))) as [v ->].
  { unfold bind, StoreMonitor.os_path_exists, StoreMonitor.load_cache, try_except, ret, logged.
    simpl. destruct (cache s); simpl; eauto. }
  unfold bind at 1.
  destruct (new_titles_of_state (t0 :: rest) v (logged s (listing_log w))) as [r ->].
  destruct r as [[|n0 new]|e];
    try (eexists _, _; split; [reflexivity | left; reflexivity]).
  destruct (notify_each_run w (store_topic w) (n0 :: new) (logged s (listing_log w)))
    as (sent & Hsent & _).
  fold (store_topic w). fold (persist w (t0 :: rest)).
  unfold bind. rewrite Hsent.
  match goal with |- context [persist w ?l ?st] =>
    destruct (persist_run w l st) as (err & -> & _) end.
  eexists _, _; split; [reflexivity | right; reflexivity].
Qed.

Lemma cache_after_write_bounded (before : file_state) (titles : list string) :
  snapshot_bounded before ->
  snapshot_bounded (cache_after_write w before titles).
Proof.
  intros Hb. unfold cache_after_write. destruct (file_write w).
  - apply firstn_50_bounded.
  - exact Hb.
  - intros items H. discriminate H.
Qed.

End StoreCache.

Lemma count_occ_filter_kept (f : string -> bool) (l : list string) (t : string) :
  f t = true ->
  count_occ string_dec (filter f l) t = count_occ string_dec l t.
Proof.
  intros Hf. induction l as [|x l IH]; simpl; [reflexivity|].
  destruct (f x) eqn:Hx; simpl.
  - destruct (string_dec x t); rewrite IH; reflexivity.
  - destruct (string_dec x t) as [->|]; [congruence | exact IH].
Qed.

Lemma spec_new_no_previous (current : list string) : spec_new current [] = current.
Proof.
  unfold spec_new. induction current as [|t rest IH]; simpl; [reflexivity|].
  f_equal. exact IH.
Qed.

(** Nothing is new against a snapshot that holds every current title. *)
Lemma spec_new_all_seen (current previous : list string) :
  (forall t, In t current -> In t previous) ->
  spec_new current previous = [].
Proof.
  intros Hall. unfold spec_new. induction current as [|t rest IH]; simpl; [reflexivity|].
  assert (seen_in previous t = true) as -> by (apply seen_in_spec, Hall; left; reflexivity).
  simpl. apply IH. intros u Hu. apply Hall. right. exact Hu.
Qed.

(** ** Properties of the novelty detector *)

(** C1.  Whatever the listing and the previous snapshot, the new titles are
    the current titles that are not members of the snapshot, in the order of
    the listing and with their repetitions (a title absent from the snapshot
    is new as often as it is listed); the run then calls the notifier once
    per new title, in that order, with the message "New product added:
    <title>": with a channel configured these are exactly the POST requests
    of the run, and with none each call leaves the notifier's skip notice. *)
Theorem new_titles_notified_in_order (w : world) (previous : list string) :
  let current := listing_titles w in
  let new := spec_new current previous in
  (forall s, StoreMonitor.new_titles_of current (JArr (map JStr previous)) s = (Ok new, s))
  /\ (forall t, In t new <-> In t current /\ ~ In t previous)
  /\ (forall t, ~ In t previous ->
        count_occ string_dec new t = count_occ string_dec current t)
  /\ exists s',
       StoreMonitor.main w (initial (snapshot previous)) = (Ok tt, s')
       /\ (forall t, store_topic w = Some t -> PyStr.truthy t = true ->
             posted (trace s')
             = map (fun title => (ntfy_url t, "New product added: " ++ title)) new)
       /\ (PyStr.truthy_opt (store_topic w) = false ->
             posted (trace s') = []
             /\ exists rest,
                  trace s' = (map (fun _ => EStderr StoreMonitor.skip_notice) new ++ rest)%list
                  /\ posted rest = []).
Proof.
  intros current new. split; [|split; [|split]].
  - intros s. apply new_titles_of_snapshot.
  - intros t. apply spec_new_In.
  - intros t Hnot. apply count_occ_filter_kept.
    apply negb_true_iff. destruct (seen_in previous t) eqn:Hs; [|reflexivity].
    apply seen_in_spec in Hs. contradiction.
  - destruct (store_main_effect w (initial (snapshot previous)) previous eq_refl)
      as (evs & Hrun & Hnone & Hsome).
    eexists. split; [exact Hrun|]. cbn [trace initial app].
    fold current in Hnone, Hsome. fold new in Hnone, Hsome.
    assert (Hlog : posted (listing_log w) = []).
    { unfold listing_log. destruct (http_get_page w StoreMonitor.listing_url) as [e | r];
        [reflexivity | destruct (is_http_error (status_code r)); reflexivity]. }
    destruct new as [|n0 rest] eqn:Hnew.
    + rewrite (Hnone eq_refl). split.
      * intros t _ _. exact Hlog.
      * intros _. split; [exact Hlog|]. exists (listing_log w). split; [reflexivity | exact Hlog].
    + destruct Hsome as (sent & err & -> & Hws & Hwe & Hpe & _ & Hoff & Hon); [discriminate|].
      split.
      * intros t Ht Htt. rewrite posted_app. cbn [posted]. rewrite Hpe, app_nil_r.
        exact (Hon t Ht Htt).
      * intros Hf. rewrite (Hoff Hf). split.
        -- rewrite posted_app. cbn [posted]. rewrite Hpe, app_nil_r.
           clear. induction (n0 :: rest); simpl; auto.
        -- eexists. split; [reflexivity|]. cbn [posted]. exact Hpe.
Qed.

(** The example of the specification: listing "Indiana Tee", "Ohio Tee"
    against the snapshot "Ohio Tee". *)
Lemma new_titles_notified_sample :
  exists s',
    StoreMonitor.main sample_world (initial (snapshot ["Ohio Tee"])) = (Ok tt, s')
    /\ posted (trace s') = [("https://ntfy.sh/deadshirts", "New product added: Indiana Tee")]
    /\ cache s' = snapshot ["Indiana Tee"; "Ohio Tee"].
Proof.
  destruct (new_titles_notified_in_order sample_world ["Ohio Tee"])
    as (_ & _ & _ & s' & Hrun & Hon & _).
  exists s'. split; [exact Hrun|]. split.
  - exact (Hon "deadshirts" eq_refl eq_refl).
  - vm_compute in Hrun. injection Hrun as <-. reflexivity.
Defined.

Lemma startswith_app (p s : string) : PyStr.startswith (p ++ s) p = true.
Proof.
  unfold PyStr.startswith. induction p as [|c p IH]; simpl.
  - destruct s; reflexivity.
  - destruct (ascii_dec c c); [exact IH | congruence].
Qed.

(** A run in which nothing is new only performs the listing fetch. *)
Lemma store_main_nothing_new (w : world) (s : state) (previous : list string) :
  last_seen_of (cache s) = JArr (map JStr previous) ->
  spec_new (listing_titles w) previous = [] ->
  StoreMonitor.main w s = (Ok tt, logged s (listing_log w)).
Proof.
  intros Hprev Hnew. rewrite (store_main_run w s previous Hprev), Hnew.
  destruct (listing_titles w); reflexivity.
Qed.

Lemma listing_log_quiet (w : world) :
  posted (listing_log w) = [] /\ writes (listing_log w) = [].
Proof.
  unfold listing_log. destruct (http_get_page w StoreMonitor.listing_url) as [e | r];
    [split; reflexivity | destruct (is_http_error (status_code r)); split; reflexivity].
Qed.

(** C2.  A run that finds a new title and whose write goes through replaces
    the stored snapshot by exactly the first 50 current titles, whatever was
    stored before (one write, nothing of the previous snapshot is kept);
    hence over any sequence of runs, whatever their worlds and whether or
    not their writes go through, a stored snapshot of at most 50 titles
    stays one of at most 50 titles. *)
Theorem snapshot_overwritten_with_first_50 (w : world) (s : state) :
  (forall previous,
      last_seen_of (cache s) = JArr (map JStr previous) ->
      spec_new (listing_titles w) previous <> [] ->
      file_write w = WriteOk ->
      exists s',
        StoreMonitor.main w s = (Ok tt, s')
        /\ cache s' = snapshot (firstn 50 (listing_titles w))
        /\ writes (trace s') = (writes (trace s) ++ [firstn 50 (listing_titles w)])%list
        /\ length (firstn 50 (listing_titles w)) <= 50)
  /\ (forall ws f, snapshot_bounded f -> snapshot_bounded (cache_after_runs ws f)).
Proof.
  split.
  - intros previous Hprev Hnew Hok.
    destruct (store_main_effect w s previous Hprev) as (evs & Hrun & _ & Hsome).
    destruct (Hsome Hnew) as (sent & err & -> & Hws & Hwe & _ & Herr & _).
    eexists. split; [exact Hrun|]. cbn [cache trace].
    destruct (spec_new (listing_titles w) previous); [congruence|].
    unfold cache_after_write. rewrite Hok, (Herr Hok).
    split; [reflexivity|]. split; [|apply firstn_le_length].
    rewrite !writes_app, Hws. reflexivity.
  - intros ws. induction ws as [|w0 rest IH]; intros f Hf; simpl; [exact Hf|].
    apply IH.
    destruct (store_main_cache w0 (initial f)) as (r & s' & Hrun & Hc).
    rewrite Hrun. cbn [snd]. destruct Hc as [-> | ->]; cbn [initial cache].
    + exact Hf.
    + apply cache_after_write_bounded. exact Hf.
Qed.

(** The truncation example of the specification: sixty titles against an
    empty snapshot give sixty notifications and a snapshot of the first
    fifty. *)
Lemma snapshot_overwritten_sixty :
  exists s',
    StoreMonitor.main sixty_world (initial (snapshot [])) = (Ok tt, s')
    /\ cache s' = snapshot (firstn 50 sixty_titles)
    /\ length (posted (trace s')) = 60.
Proof.
  destruct (proj1 (snapshot_overwritten_with_first_50 sixty_world (initial (snapshot []))) [])
    as (s' & Hrun & Hcache & _).
  - reflexivity.
  - vm_compute. discriminate.
  - reflexivity.
  - exists s'. split; [exact Hrun|]. split; [exact Hcache|].
    vm_compute in Hrun. injection Hrun as <-. reflexivity.
Defined.

(** C3.  A run whose fetch yields no title (a fetch failure yields none)
    stops there: nothing is read, notified or written.  A run in which no
    current title is new notifies nothing and writes nothing either.  In
    both the cache file is left as it was; the only event there can be is
    the fetch's own error line. *)
Theorem snapshot_untouched_without_new_titles (w : world) (s : state) :
  (listing_titles w = [] ->
     StoreMonitor.main w s = (Ok tt, logged s (listing_log w)))
  /\ (forall previous,
        last_seen_of (cache s) = JArr (map JStr previous) ->
        spec_new (listing_titles w) previous = [] ->
        StoreMonitor.main w s = (Ok tt, logged s (listing_log w)))
  /\ cache (logged s (listing_log w)) = cache s
  /\ writes (listing_log w) = []
  /\ posted (listing_log w) = []
  /\ stdout_lines (listing_log w) = []
  /\ (forall line, In line (stderr_lines (listing_log w)) ->
        listing_titles w = []
        /\ PyStr.startswith line "Error fetching store page: " = true)
  /\ ((forall e, http_get_page w StoreMonitor.listing_url = HttpRaises e ->
         listing_titles w = [])
      /\ (forall r, http_get_page w StoreMonitor.listing_url = HttpResponse r ->
            is_http_error (status_code r) = true -> listing_titles w = [])).
Proof.
  split; [|split; [|split; [|split; [|split; [|split; [|split]]]]]].
  - intros Hnil. unfold StoreMonitor.main, bind.
    rewrite fetch_product_titles_run, Hnil. reflexivity.
  - intros previous. apply store_main_nothing_new.
  - reflexivity.
  - apply listing_log_quiet.
  - apply listing_log_quiet.
  - unfold listing_log. destruct (http_get_page w StoreMonitor.listing_url) as [e | r];
      [reflexivity | destruct (is_http_error (status_code r)); reflexivity].
  - intros line. unfold listing_log, listing_titles.
    destruct (http_get_page w StoreMonitor.listing_url) as [e | r];
      [|destruct (is_http_error (status_code r))]; simpl; intros Hin;
      try contradiction; destruct Hin as [<- | []];
      (split; [reflexivity | exact (startswith_app "Error fetching store page: " _)]).
  - split.
    + intros e He. unfold listing_titles. rewrite He. reflexivity.
    + intros r Hr Hc. unfold listing_titles. rewrite Hr, Hc. reflexivity.
Qed.

(** A timed-out listing fetch leaves the snapshot and sends nothing. *)
Lemma snapshot_untouched_offline :
  listing_titles offline_world = []
  /\ StoreMonitor.main offline_world (initial (snapshot ["Ohio Tee"]))
     = (Ok tt, State [EStderr "Error fetching store page: Read timed out."] 0
                 (snapshot ["Ohio Tee"])).
Proof.
  split; [reflexivity|].
  exact (proj1 (snapshot_untouched_without_new_titles offline_world
                  (initial (snapshot ["Ohio Tee"]))) eq_refl).
Defined.

(** C5.  Two runs in a row over the same listing of at most 50 titles, the
    first of which gets its write through: the snapshot the first run
    leaves holds every title of the listing, so nothing is new in the second
    run, which calls the notifier not once, makes no request and leaves the
    cache file alone. *)
Theorem second_run_sends_nothing (w1 w2 : world) (f : file_state) (previous : list string) :
  last_seen_of f = JArr (map JStr previous) ->
  http_get_page w2 StoreMonitor.listing_url = http_get_page w1 StoreMonitor.listing_url ->
  length (listing_titles w1) <= 50 ->
  file_write w1 = WriteOk ->
  exists s1 seen,
    StoreMonitor.main w1 (initial f) = (Ok tt, s1)
    /\ last_seen_of (cache s1) = JArr (map JStr seen)
    /\ (forall t, In t (listing_titles w2) -> In t seen)
    /\ spec_new (listing_titles w2) seen = []
    /\ StoreMonitor.main w2 (initial (cache s1))
       = (Ok tt, State (listing_log w2) 0 (cache s1))
    /\ posted (listing_log w2) = []
    /\ (listing_titles w2 <> [] -> listing_log w2 = []).
Proof.
  intros Hprev Hsame Hlen Hok.
  assert (Htitles : listing_titles w2 = listing_titles w1)
    by (unfold listing_titles; rewrite Hsame; reflexivity).
  destruct (store_main_effect w1 (initial f) previous Hprev) as (evs & Hrun & Hnone & Hsome).
  cbn [initial cache trace posts_made] in Hrun.
  assert (Hsilent : forall c seen,
             last_seen_of c = JArr (map JStr seen) ->
             spec_new (listing_titles w2) seen = [] ->
             StoreMonitor.main w2 (initial c) = (Ok tt, State (listing_log w2) 0 c)).
  { intros c seen Hc Hn.
    exact (store_main_nothing_new w2 (initial c) seen Hc Hn). }
  destruct (spec_new (listing_titles w1) previous) as [|n0 new] eqn:Hnew.
  - (* nothing was new: the file is as before, and still holds every title *)
    assert (Hall : forall t, In t (listing_titles w2) -> In t previous).
    { intros t Hin. rewrite Htitles in Hin.
      destruct (seen_in previous t) eqn:Hs; [apply seen_in_spec; exact Hs|].
      assert (In t (spec_new (listing_titles w1) previous)) as Habs.
      { apply spec_new_In. split; [exact Hin|].
        intros Hp. apply seen_in_spec in Hp. congruence. }
      rewrite Hnew in Habs. contradiction. }
    eexists _, previous. split; [exact Hrun|]. cbn [cache].
    split; [exact Hprev|]. split; [exact Hall|].
    split; [apply spec_new_all_seen; exact Hall|].
    split; [apply (Hsilent f previous Hprev), spec_new_all_seen; exact Hall|].
    split; [apply listing_log_quiet | apply listing_log_nil].
  - (* the first run wrote the whole listing *)
    assert (Hcache : cache_after_write w1 f (listing_titles w1) = snapshot (listing_titles w1)).
    { unfold cache_after_write. rewrite Hok, firstn_all2 by exact Hlen. reflexivity. }
    rewrite Hcache in Hrun.
    eexists _, (listing_titles w1). split; [exact Hrun|]. cbn [cache].
    assert (Hall : forall t, In t (listing_titles w2) -> In t (listing_titles w1))
      by (intros t Hin; rewrite <- Htitles; exact Hin).
    split; [reflexivity|]. split; [exact Hall|].
    split; [apply spec_new_all_seen; exact Hall|].
    split; [apply (Hsilent (snapshot (listing_titles w1)) (listing_titles w1) eq_refl),
              spec_new_all_seen; exact Hall|].
    split; [apply listing_log_quiet | apply listing_log_nil].
Qed.

(** The sample listing, run twice from an absent cache file. *)
Lemma second_run_sends_nothing_sample :
  exists s1,
    StoreMonitor.main sample_world (initial FAbsent) = (Ok tt, s1)
    /\ length (posted (trace s1)) = 2
    /\ StoreMonitor.main quiet_world (initial (cache s1)) = (Ok tt, State [] 0 (cache s1)).
Proof.
  destruct (second_run_sends_nothing sample_world quiet_world FAbsent [])
    as (s1 & seen & Hrun & _ & _ & _ & Hsecond & _).
  - reflexivity.
  - reflexivity.
  - vm_compute. lia.
  - reflexivity.
  - exists s1. split; [exact Hrun|]. split; [|exact Hsecond].
    vm_compute in Hrun. injection Hrun as <-. reflexivity.
Defined.

(** C6.  When the cache file cannot be read (it is absent, unreadable or
    malformed) the previous titles are the empty list: every current title
    is new, and the run notifies each of them, in the order of the listing. *)
Theorem failed_read_makes_every_title_new (w : world) (s : state) :
  read_fails (cache s) ->
  last_seen_of (cache s) = JArr []
  /\ (forall s0,
        StoreMonitor.new_titles_of (listing_titles w) (last_seen_of (cache s)) s0
        = (Ok (listing_titles w), s0))
  /\ exists s' evs,
       StoreMonitor.main w s = (Ok tt, s')
       /\ trace s' = (trace s ++ evs)%list
       /\ (forall t, store_topic w = Some t -> PyStr.truthy t = true ->
             posted evs
             = map (fun title => (ntfy_url t, "New product added: " ++ title))
                 (listing_titles w))
       /\ (PyStr.truthy_opt (store_topic w) = false ->
             listing_titles w <> [] ->
             exists rest,
               evs = (map (fun _ => EStderr StoreMonitor.skip_notice) (listing_titles w)
                        ++ rest)%list
               /\ posted rest = []).
Proof.
  intros Hfail.
  assert (Hempty : last_seen_of (cache s) = JArr (map JStr []))
    by (destruct (cache s); [reflexivity | reflexivity | reflexivity | contradiction]).
  split; [exact Hempty|]. split.
  - intros s0. rewrite Hempty, new_titles_of_snapshot, spec_new_no_previous. reflexivity.
  - destruct (store_main_effect w s [] Hempty) as (evs & Hrun & Hnone & Hsome).
    rewrite spec_new_no_previous in Hnone, Hsome.
    eexists _, evs. split; [exact Hrun|]. split; [reflexivity|].
    destruct (listing_titles w) as [|t0 rest] eqn:Hcur.
    + rewrite (Hnone eq_refl). split.
      * intros t _ _. exact (proj1 (listing_log_quiet w)).
      * intros _ Habs. congruence.
    + destruct Hsome as (sent & err & -> & _ & _ & Hpe & _ & Hoff & Hon); [discriminate|].
      split.
      * intros t Ht Htt. rewrite posted_app. cbn [posted]. rewrite Hpe, app_nil_r.
        exact (Hon t Ht Htt).
      * intros Hf _. rewrite (Hoff Hf). eexists. split; [reflexivity | exact Hpe].
Qed.

(** A malformed cache file: both sample titles are notified again. *)
Lemma failed_read_sample :
  exists s' evs,
    StoreMonitor.main sample_world
      (initial (FMalformed (Exn "JSONDecodeError" "Expecting value"))) = (Ok tt, s')
    /\ trace s' = evs
    /\ posted evs = [("https://ntfy.sh/deadshirts", "New product added: Indiana Tee");
                     ("https://ntfy.sh/deadshirts", "New product added: Ohio Tee")].
Proof.
  destruct (failed_read_makes_every_title_new sample_world
              (initial (FMalformed (Exn "JSONDecodeError" "Expecting value"))) I)
    as (_ & _ & s' & evs & Hrun & Htrace & Hon & _).
  exists s', evs. split; [exact Hrun|]. split; [exact Htrace|].
  exact (Hon "deadshirts" eq_refl eq_refl).
Defined.

(** ** The page/variant checker, step by step *)

Lemma notified_app (a b : list event) :
  notified (a ++ b) = (notified a ++ notified b)%list.
Proof.
  induction a as [|e a IH]; simpl; [reflexivity|].
  destruct e; simpl; rewrite IH; reflexivity.
Qed.

Section MonitorSteps.
Variable w : world.

(** Page resolution never raises: it yields the page and at most logs. *)
Lemma find_product_page_run (state_keyword : string) (s : state) :
  Monitor.find_product_page w state_keyword s
  = (Ok (resolved_page w state_keyword), logged s (collection_log w)).
Proof.
  unfold Monitor.find_product_page, resolved_page, collection_links, collection_log,
    requests_get_page, raise_for_status, bind, try_except, eprint, emit, ret, raise.
  destruct (http_get_page w Monitor.collection_url) as [e | r]; simpl.
  - reflexivity.
  - destruct (is_http_error (status_code r)); simpl.
    + reflexivity.
    + rewrite logged_nil. reflexivity.
Qed.

(** The notifier of the checker returns, whatever the network does; it
    delivers the message once: on stdout without a channel, as the body of
    one POST with one. *)
Lemma monitor_send_notification_run (topic : option string) (message : string) (s : state) :
  exists evs : list event,
    Monitor.send_notification w topic message s
    = (Ok tt, State (trace s ++ evs) (posts_made s + length (posted evs)) (cache s))
    /\ notified evs = [message]
    /\ (PyStr.truthy_opt topic = false -> evs = [EStdout message])
    /\ (forall t, topic = Some t -> PyStr.truthy t = true ->
          posted evs = [(ntfy_url t, message)]).
Proof.
  unfold Monitor.send_notification.
  destruct topic as [t|]; [destruct (PyStr.truthy t) eqn:Ht|].
  - unfold try_except, bind, requests_post, eprint, emit, ret.
    destruct (http_post w (posts_made s) ("https://ntfy.sh/" ++ t) message) as [e | r]; simpl.
    + exists [EPost ("https://ntfy.sh/" ++ t) message 10;
              EStderr ("Error sending notification: " ++ exn_text e)].
      simpl. rewrite <- app_assoc, Nat.add_1_r. simpl.
      split; [reflexivity | split; [reflexivity | split]].
      * rewrite Ht. discriminate.
      * intros t' Ht' _. injection Ht' as <-. reflexivity.
    + exists [EPost ("https://ntfy.sh/" ++ t) message 10].
      simpl. rewrite Nat.add_1_r.
      split; [reflexivity | split; [reflexivity | split]].
      * rewrite Ht. discriminate.
      * intros t' Ht' _. injection Ht' as <-. reflexivity.
  - exists [EStdout message]. unfold print, emit. simpl. rewrite Nat.add_0_r.
    split; [reflexivity | split; [reflexivity | split]].
    + auto.
    + intros t' Ht' Htt. injection Ht' as <-. congruence.
  - exists [EStdout message]. unfold print, emit. simpl. rewrite Nat.add_0_r.
    split; [reflexivity | split; [reflexivity | split]].
    + auto.
    + discriminate.
Qed.

(** The availability check, by the way its fetch ends. *)
Lemma check_variant_available_run (product_url size_keyword : string) (s : state) :
  Monitor.check_variant_available w product_url size_keyword s
  = match product_fetch_of w product_url with
    | FetchFailed line => (Ok JNull, logged s [EStderr line])
    | Fetched data =>
        (product <- py_get data "product" JNull ;;
         if negb (json_truthy product) then ret JNull
         else
           variants <- py_get product "variants" (JArr []) ;;
           items <- py_iter variants ;;
           Monitor.scan_variants size_keyword items) s
    end.
Proof.
  unfold Monitor.check_variant_available, product_fetch_of, json_url_of.
  unfold bind at 1.
  unfold try_except, requests_get_json, raise_for_status, resp_json, eprint, emit.
  unfold bind at 1 2 3 4. unfold ret at 1 2 3 4, raise at 1 2 3.
  destruct (http_get_json w (PyStr.rstrip_slash product_url ++ ".json")) as [e | r].
  - reflexivity.
  - destruct (is_http_error (status_code r)); [reflexivity|].
    destruct (payload r) as [data | e]; reflexivity.
Qed.

(** No variant of another size stops the scan. *)
Lemma scan_variants_other_sizes (size_keyword : string) (variants : list json) (s : state) :
  Forall (other_size size_keyword) variants ->
  Monitor.scan_variants size_keyword variants s = (Ok JNull, s).
Proof.
  induction 1 as [|v rest (fields & title & -> & Ht & Hno) _ IH]; simpl; [reflexivity|].
  unfold bind, py_get, ret. rewrite Ht, Hno. exact IH.
Qed.

(** The scan passes over variants of other sizes. *)
Lemma scan_variants_skip (size_keyword : string) (before after : list json) (s : state) :
  Forall (other_size size_keyword) before ->
  Monitor.scan_variants size_keyword (before ++ after) s
  = Monitor.scan_variants size_keyword after s.
Proof.
  induction 1 as [|v rest (fields & title & -> & Ht & Hno) _ IH]; simpl; [reflexivity|].
  unfold bind, py_get, ret. rewrite Ht, Hno. exact IH.
Qed.

End MonitorSteps.

(** ** A whole run of the checker *)

Section MonitorRun.
Variable w : world.

Lemma monitor_main_run (s : state) :
  Monitor.main w s
  = match resolved_page w (state_keyword_of w) with
    | Some product_url =>
        if PyStr.truthy product_url then
          report_variant w (state_keyword_of w) (size_keyword_of w) product_url
            (logged s (collection_log w))
        else
          Monitor.send_notification w (monitor_topic w)
            (Monitor.msg_page_missing (state_keyword_of w)) (logged s (collection_log w))
    | None =>
        Monitor.send_notification w (monitor_topic w)
          (Monitor.msg_page_missing (state_keyword_of w)) (logged s (collection_log w))
    end.
Proof.
  unfold Monitor.main, get_env at 1 2, state_keyword_of, size_keyword_of.
  destruct (getenv w "STATE_KEYWORD") as [state_keyword|];
    destruct (getenv w "SIZE_KEYWORD") as [size_keyword|];
    unfold bind at 1; rewrite find_product_page_run;
    match goal with |- context [resolved_page w ?k] =>
      destruct (resolved_page w k) as [url|]; [destruct (PyStr.truthy url)|] end;
    reflexivity.
Qed.

(** Once the availability check has returned, one notification follows. *)
Lemma report_variant_run (state_keyword size_keyword product_url : string)
    (available : json) (s s1 : state) (log : list event) :
  Monitor.check_variant_available w product_url size_keyword s = (Ok available, s1) ->
  s1 = logged s log -> notified log = [] ->
  exists s' evs,
    report_variant w state_keyword size_keyword product_url s = (Ok tt, s')
    /\ trace s' = (trace s ++ evs)%list
    /\ cache s' = cache s
    /\ notified evs
       = [if is_none available
          then Monitor.msg_variant_missing state_keyword size_keyword
          else if json_truthy available
               then Monitor.msg_available state_keyword size_keyword product_url
               else Monitor.msg_sold_out state_keyword size_keyword product_url].
Proof.
  intros Hcheck -> Hlog. unfold report_variant, bind. rewrite Hcheck.
  destruct (is_none available); [|destruct (json_truthy available)];
    match goal with |- context [Monitor.send_notification w ?t ?m ?st] =>
      destruct (monitor_send_notification_run w t m st) as (evs & -> & Hn & _) end;
    (eexists _, (log ++ evs)%list; cbn [trace cache logged];
     rewrite notified_app, Hlog, Hn, <- app_assoc; auto).
Qed.

(** Without a resolved page the one notification is "page missing". *)
Lemma page_missing_run (s : state) :
  PyStr.truthy_opt (resolved_page w (state_keyword_of w)) = false ->
  exists s' evs,
    Monitor.main w s = (Ok tt, s')
    /\ trace s' = (trace s ++ evs)%list
    /\ notified evs = [Monitor.msg_page_missing (state_keyword_of w)].
Proof.
  intros Hnone. rewrite monitor_main_run.
  assert (Hlog : notified (collection_log w) = []).
  { unfold collection_log. destruct (http_get_page w Monitor.collection_url) as [e | r];
      [reflexivity | destruct (is_http_error (status_code r)); reflexivity]. }
  destruct (resolved_page w (state_keyword_of w)) as [url|]; simpl in Hnone;
    [rewrite Hnone|];
    match goal with |- context [Monitor.send_notification w ?t ?m ?st] =>
      destruct (monitor_send_notification_run w t m st) as (evs & -> & Hn & _) end;
    (eexists _, (collection_log w ++ evs)%list; cbn [trace logged];
     rewrite notified_app, Hlog, Hn, <- app_assoc; auto).
Qed.

Lemma collection_log_silent : notified (collection_log w) = [].
Proof.
  unfold collection_log. destruct (http_get_page w Monitor.collection_url) as [e | r];
    [reflexivity | destruct (is_http_error (status_code r)); reflexivity].
Qed.

End MonitorRun.

(** No link of another state is selected; the first matching one is. *)
Lemma first_matching_link_none (state_keyword : string) (links : list link) :
  Forall (other_state state_keyword) links ->
  Monitor.first_matching_link state_keyword links = None.
Proof.
  induction 1 as [|l rest Hl _ IH]; simpl; [reflexivity|].
  unfold other_state in Hl. rewrite Hl. exact IH.
Qed.

Lemma first_matching_link_first (state_keyword : string) (before after : list link) (l : link) :
  Forall (other_state state_keyword) before ->
  PyStr.str_in (PyStr.lower state_keyword) (PyStr.lower (link_text l)) = true ->
  Monitor.first_matching_link state_keyword (before ++ l :: after)
  = Some (resolve_href (link_href l)).
Proof.
  intros Hb Hl. induction Hb as [|x rest Hx _ IH]; simpl.
  - rewrite Hl. unfold resolve_href. destruct (PyStr.startswith (link_href l) "/"); reflexivity.
  - unfold other_state in Hx. rewrite Hx. exact IH.
Qed.

(** ** Properties of the page/variant checker *)

Section MonitorOutcomes.
Variable w : world.

Lemma check_variant_available_none (product_url size_keyword : string) (s : state) :
  no_variant_found w product_url size_keyword ->
  exists log,
    Monitor.check_variant_available w product_url size_keyword s = (Ok JNull, logged s log)
    /\ notified log = [].
Proof.
  intros [(line & Hf) | [(data & Hf & fields & -> & Hp)
                        | (data & variants & Hf & (fields & pf & -> & Hp & Hne & Hv) & Hall)]];
    rewrite check_variant_available_run, Hf.
  - exists [EStderr line]. split; reflexivity.
  - exists []. unfold bind, py_get, ret. rewrite Hp. simpl. rewrite logged_nil.
    split; reflexivity.
  - exists []. unfold bind at 1. unfold py_get at 1, ret at 1. rewrite Hp.
    assert (json_truthy (JObj pf) = true) as -> by (destruct pf; [congruence | reflexivity]).
    cbn [negb]. unfold bind, py_get, py_iter, ret. rewrite Hv.
    rewrite scan_variants_other_sizes by exact Hall. rewrite logged_nil.
    split; reflexivity.
Qed.

Lemma check_variant_available_unlabelled (product_url size_keyword : string)
    (data : json) (before after : list json) (fields : list (string * json))
    (title : string) (s : state) :
  product_fetch_of w product_url = Fetched data ->
  has_variants data (before ++ JObj fields :: after) ->
  Forall (other_size size_keyword) before ->
  dict_get fields "title" (JStr "") = JStr title ->
  PyStr.str_in (PyStr.lower size_keyword) (PyStr.lower title) = true ->
  Monitor.check_variant_available w product_url size_keyword s
  = (Ok (dict_get fields "available" (JBool false)), s).
Proof.
  intros Hf (df & pf & -> & Hp & Hne & Hv) Hbefore Ht Hin.
  rewrite check_variant_available_run, Hf.
  unfold bind at 1. unfold py_get at 1, ret at 1. rewrite Hp.
  assert (json_truthy (JObj pf) = true) as -> by (destruct pf; [congruence | reflexivity]).
  cbn [negb]. unfold bind at 1 2. unfold py_get at 1, py_iter, ret at 1 2. rewrite Hv.
  unfold ret at 1. rewrite scan_variants_skip by exact Hbefore.
  simpl. unfold bind, py_get, ret. rewrite Ht, Hin. reflexivity.
Qed.

End MonitorOutcomes.

(** C7.  For a resolved product page, a failed fetch or parse of the product
    data, product data without a product, and a variant list none of whose
    titles contains the size keyword (compared in lower case) all make the
    availability check return None, and the run then delivers exactly one
    message, the "variant missing" one. *)
Theorem variant_missing_collapse (w : world) (s : state) (product_url : string) :
  resolved_page w (state_keyword_of w) = Some product_url ->
  PyStr.truthy product_url = true ->
  no_variant_found w product_url (size_keyword_of w) ->
  (exists log,
     Monitor.check_variant_available w product_url (size_keyword_of w) s
     = (Ok JNull, logged s log))
  /\ exists s' evs,
       Monitor.main w s = (Ok tt, s')
       /\ trace s' = (trace s ++ evs)%list
       /\ notified evs
          = [PyStr.title (state_keyword_of w) ++ " product found, but the "
               ++ PyStr.title (size_keyword_of w) ++ " variant is missing."].
Proof.
  intros Hpage Hurl Hnone. split.
  - destruct (check_variant_available_none w product_url (size_keyword_of w) s Hnone)
      as (log & Hrun & _). exists log. exact Hrun.
  - rewrite monitor_main_run, Hpage, Hurl.
    destruct (check_variant_available_none w product_url (size_keyword_of w)
                (logged s (collection_log w)) Hnone) as (log & Hrun & Hlog).
    destruct (report_variant_run w (state_keyword_of w) (size_keyword_of w) product_url
                JNull _ _ log Hrun eq_refl Hlog) as (s' & evs & -> & Htr & _ & Hn).
    exists s', (collection_log w ++ evs)%list.
    split; [reflexivity|]. split.
    + rewrite Htr. cbn [trace logged]. rewrite app_assoc. reflexivity.
    + rewrite notified_app, collection_log_silent, Hn. reflexivity.
Qed.

(** The three conditions on the sample page: a timed-out fetch, data without
    a product, and a variant list without the size. *)
Lemma variant_missing_collapse_sample :
  let says w :=
    exists s',
      Monitor.main w (initial FAbsent) = (Ok tt, s')
      /\ notified (trace s') = ["Indiana product found, but the Large variant is missing."] in
  says (world_answering (HttpRaises (Exn "ReadTimeout" "Read timed out.")))
  /\ says (world_answering
             (HttpResponse (Response 200 "" (Ok (JObj [("errors", JStr "Not Found")])))))
  /\ says (world_answering
             (HttpResponse (Response 200 "" (Ok (JObj [("product",
                JObj [("variants", JArr [JObj [("title", JStr "Small")]])])])))))
  /\ says (world_answering
             (HttpResponse (Response 200 "" (Raise (Exn "JSONDecodeError" "Expecting value"))))).
Proof.
  assert (Hsays : forall outcome,
             no_variant_found (world_answering outcome)
               "https://store.dead.net/products/indiana-tee" "large" ->
             exists s',
               Monitor.main (world_answering outcome) (initial FAbsent) = (Ok tt, s')
               /\ notified (trace s')
                  = ["Indiana product found, but the Large variant is missing."]).
  { intros outcome Hnone.
    destruct (variant_missing_collapse (world_answering outcome) (initial FAbsent)
                "https://store.dead.net/products/indiana-tee" eq_refl eq_refl Hnone)
      as (_ & s' & evs & Hrun & Htr & Hn).
    exists s'. split; [exact Hrun|]. rewrite Htr. exact Hn. }
  cbv zeta. split; [|split; [|split]]; apply Hsays.
  - left. eexists. reflexivity.
  - right. left. eexists. split; [reflexivity|]. eexists. split; reflexivity.
  - right. right. eexists _, _. split; [reflexivity|]. split.
    + eexists _, _. repeat split. discriminate.
    + repeat constructor. eexists _, _. repeat split.
  - left. eexists. reflexivity.
Defined.

(** C10.  When the first variant whose title contains the size keyword has
    no "available" field, the availability check returns False (the default
    of the lookup), and the run delivers exactly the sold-out message with
    the page's URL, not the "variant missing" one. *)
Theorem missing_available_field_is_sold_out (w : world) (s : state) (product_url : string)
    (data : json) (before after : list json) (fields : list (string * json))
    (title : string) :
  resolved_page w (state_keyword_of w) = Some product_url ->
  PyStr.truthy product_url = true ->
  product_fetch_of w product_url = Fetched data ->
  has_variants data (before ++ JObj fields :: after) ->
  Forall (other_size (size_keyword_of w)) before ->
  dict_get fields "title" (JStr "") = JStr title ->
  PyStr.str_in (PyStr.lower (size_keyword_of w)) (PyStr.lower title) = true ->
  dict_lookup fields "available" = None ->
  Monitor.check_variant_available w product_url (size_keyword_of w) s = (Ok (JBool false), s)
  /\ exists s' evs,
       Monitor.main w s = (Ok tt, s')
       /\ trace s' = (trace s ++ evs)%list
       /\ notified evs
          = [PyStr.title (state_keyword_of w) ++ " " ++ PyStr.title (size_keyword_of w)
               ++ " is currently sold out. " ++ product_url].
Proof.
  intros Hpage Hurl Hf Hv Hbefore Ht Hin Hmissing.
  assert (Hcheck : forall s0,
             Monitor.check_variant_available w product_url (size_keyword_of w) s0
             = (Ok (JBool false), s0)).
  { intros s0.
    rewrite (check_variant_available_unlabelled w product_url (size_keyword_of w)
               data before after fields title s0 Hf Hv Hbefore Ht Hin).
    unfold dict_get. rewrite Hmissing. reflexivity. }
  split; [apply Hcheck|].
  rewrite monitor_main_run, Hpage, Hurl.
  destruct (report_variant_run w (state_keyword_of w) (size_keyword_of w) product_url
              (JBool false) (logged s (collection_log w)) _ []
              (Hcheck _) (eq_sym (logged_nil _)) eq_refl)
    as (s' & evs & -> & Htr & _ & Hn).
  exists s', (collection_log w ++ evs)%list.
  split; [reflexivity|]. split.
  - rewrite Htr. cbn [trace logged]. rewrite app_assoc. reflexivity.
  - rewrite notified_app, collection_log_silent, Hn. reflexivity.
Qed.

(** The sample page with a "Large" variant that carries no "available". *)
Lemma missing_available_field_sample :
  exists s',
    Monitor.main unlabelled_world (initial FAbsent) = (Ok tt, s')
    /\ notified (trace s')
       = ["Indiana Large is currently sold out. https://store.dead.net/products/indiana-tee"].
Proof.
  destruct (missing_available_field_is_sold_out unlabelled_world (initial FAbsent)
              "https://store.dead.net/products/indiana-tee" unlabelled_product
              [JObj [("title", JStr "Small"); ("available", JBool true)]] []
              [("title", JStr "Large")] "Large")
    as (_ & s' & evs & Hrun & Htr & Hn); try reflexivity.
  - eexists _, _. repeat split. discriminate.
  - repeat constructor. eexists _, _. repeat split.
  - exists s'. split; [exact Hrun|]. rewrite Htr. exact Hn.
Defined.

(** Page resolution: when no link text contains the state keyword (compared
    in lower case), or the collection cannot be fetched, no page is
    resolved and the run delivers exactly the "page missing" message; the
    first link whose text contains it is the one selected, and an href that
    begins with a slash is joined to the store's origin. *)
Lemma page_missing_when_no_link_matches (w : world) (s : state) :
  Forall (other_state (state_keyword_of w)) (collection_links w) ->
  resolved_page w (state_keyword_of w) = None
  /\ exists s' evs,
       Monitor.main w s = (Ok tt, s')
       /\ trace s' = (trace s ++ evs)%list
       /\ notified evs = [PyStr.title (state_keyword_of w) ++ " shirt page is not yet available."].
Proof.
  intros Hnone.
  assert (Hres : resolved_page w (state_keyword_of w) = None)
    by (apply first_matching_link_none; exact Hnone).
  split; [exact Hres|]. apply page_missing_run. rewrite Hres. reflexivity.
Qed.

Lemma root_relative_href_joined (path : string) :
  resolve_href ("/" ++ path) = "https://store.dead.net/" ++ path.
Proof. unfold resolve_href. rewrite (startswith_app "/" path). reflexivity. Qed.

(** C8.  The source's own documentation promises "the full URL of the product
    page"; on a collection page whose first matching link has the href
    "products/indiana-tee" the resolver selects that link (passing over "Ohio
    Tee") and returns the href as it stands, which is no absolute URL: only
    an href that begins with a slash is joined to the store's origin.  The
    run then asks the requests library for "products/indiana-tee.json" and
    reports the variant as missing. *)
Theorem relative_href_is_not_resolved :
  Monitor.find_product_page relative_href_world "indiana" (initial FAbsent)
  = (Ok (Some "products/indiana-tee"), initial FAbsent)
  /\ PyStr.startswith "products/indiana-tee" "https://store.dead.net" = false
  /\ PyStr.startswith "products/indiana-tee" "http" = false
  /\ resolve_href "/products/indiana-tee" = "https://store.dead.net/products/indiana-tee"
  /\ Monitor.main relative_href_world (initial FAbsent)
     = (Ok tt,
        State [EStderr "Error fetching product JSON: Invalid URL 'products/indiana-tee.json': No scheme supplied.";
               EPost "https://ntfy.sh/deadshirts"
                 "Indiana product found, but the Large variant is missing." 10]
          1 FAbsent).
Proof. repeat split. Qed.

(** ** Properties of the two notifiers *)

(** C4.  Without a channel (absent or empty) the checker's notifier prints
    the message itself to stdout and returns; the novelty detector's
    notifier prints a fixed notice to the error stream instead of the
    message and returns False.  Neither raises, and neither makes a
    request. *)
Theorem notifiers_without_channel (w : world) (topic : option string)
    (message : string) (s : state) :
  PyStr.truthy_opt topic = false ->
  Monitor.send_notification w topic message s = (Ok tt, logged s [EStdout message])
  /\ StoreMonitor.send_notification w topic message s
     = (Ok false,
        logged s [EStderr "NTFY_STORE_TOPIC is not set. Skipping notification."]).
Proof.
  intros Hoff. unfold Monitor.send_notification, StoreMonitor.send_notification.
  destruct topic as [t|]; [simpl in Hoff; rewrite Hoff|]; split; reflexivity.
Qed.

Lemma notifiers_without_channel_sample :
  Monitor.send_notification quiet_world (Some "") "hello" (initial FAbsent)
  = (Ok tt, State [EStdout "hello"] 0 FAbsent)
  /\ StoreMonitor.send_notification quiet_world (Some "") "hello" (initial FAbsent)
     = (Ok false,
        State [EStderr "NTFY_STORE_TOPIC is not set. Skipping notification."] 0 FAbsent).
Proof.
  exact (notifiers_without_channel quiet_world (Some "") "hello" (initial FAbsent) eq_refl).
Defined.

(** The novelty detector's notifier, with no channel, neither writes the
    message to stdout nor returns a success signal. *)
Lemma store_notifier_without_channel_fails :
  ~ (exists s',
       StoreMonitor.send_notification quiet_world None "hello" (initial FAbsent)
       = (Ok true, s')
       /\ In "hello" (stdout_lines (trace s'))).
Proof.
  intros (s' & Hrun & _). vm_compute in Hrun. discriminate Hrun.
Qed.

(** The novelty detector's notifier with a channel: one request, never a
    second; a library exception or an error status is logged to the error
    stream and answered with False, and nothing is raised. *)
Lemma store_notifier_logs_failures (w : world) (t message : string) (s : state) :
  PyStr.truthy t = true ->
  StoreMonitor.send_notification w (Some t) message s
  = match http_post w (posts_made s) (ntfy_url t) message with
    | HttpRaises e =>
        (Ok false,
         State (trace s ++ [EPost (ntfy_url t) message 30;
                            EStderr ("Error sending notification: " ++ exn_text e)])
           (S (posts_made s)) (cache s))
    | HttpResponse r =>
        if is_http_error (status_code r) then
          (Ok false,
           State (trace s ++ [EPost (ntfy_url t) message 30;
                              EStderr ("Error sending notification: " ++ http_error r)])
             (S (posts_made s)) (cache s))
        else
          (Ok true,
           State (trace s ++ [EPost (ntfy_url t) message 30]) (S (posts_made s)) (cache s))
    end.
Proof.
  intros Ht. unfold StoreMonitor.send_notification, ntfy_url. rewrite Ht.
  unfold try_except, bind, requests_post, raise_for_status, eprint, emit, ret, raise.
  destruct (http_post w (posts_made s) ("https://ntfy.sh/" ++ t) message) as [e | r]; simpl.
  - rewrite <- app_assoc. reflexivity.
  - destruct (is_http_error (status_code r)); simpl; [rewrite <- app_assoc|]; reflexivity.
Qed.

(** The checker's notifier with a channel: one request, never a second; a
    library exception is logged to the error stream; a response is not
    looked at, whatever its status. *)
Lemma monitor_notifier_logs_exceptions (w : world) (t message : string) (s : state) :
  PyStr.truthy t = true ->
  Monitor.send_notification w (Some t) message s
  = match http_post w (posts_made s) (ntfy_url t) message with
    | HttpRaises e =>
        (Ok tt,
         State (trace s ++ [EPost (ntfy_url t) message 10;
                            EStderr ("Error sending notification: " ++ exn_text e)])
           (S (posts_made s)) (cache s))
    | HttpResponse _ =>
        (Ok tt,
         State (trace s ++ [EPost (ntfy_url t) message 10]) (S (posts_made s)) (cache s))
    end.
Proof.
  intros Ht. unfold Monitor.send_notification, ntfy_url. rewrite Ht.
  unfold try_except, bind, requests_post, eprint, emit, ret.
  destruct (http_post w (posts_made s) ("https://ntfy.sh/" ++ t) message) as [e | r]; simpl.
  - rewrite <- app_assoc. reflexivity.
  - reflexivity.
Qed.

(** C9.  A delivery answered with status 500: the novelty detector's
    notifier logs the failure to the error stream and returns False, while
    the checker's notifier, which never calls raise_for_status, logs nothing
    at all.  Neither retries, neither raises. *)
Theorem checker_notifier_ignores_error_status :
  Monitor.send_notification rejecting_world (Some "deadshirts") "hello" (initial FAbsent)
  = (Ok tt, State [EPost "https://ntfy.sh/deadshirts" "hello" 10] 1 FAbsent)
  /\ stderr_lines [EPost "https://ntfy.sh/deadshirts" "hello" 10] = []
  /\ StoreMonitor.send_notification rejecting_world (Some "deadshirts") "hello" (initial FAbsent)
     = (Ok false,
        State [EPost "https://ntfy.sh/deadshirts" "hello" 30;
               EStderr "Error sending notification: 500 Server Error: Internal Server Error for url: https://ntfy.sh/deadshirts"]
          1 FAbsent).
Proof. repeat split. Qed.

(** ** Python string operations, as the two scripts rely on them *)





Lemma prefix_spec (p s : string) :
  String.prefix p s = true <-> exists rest, s = p ++ rest.
Proof.
  revert s. induction p as [|c p IH]; intros s.
  - split; [intros _; exists s; reflexivity | intros _; destruct s; reflexivity].
  - destruct s as [|d s]; simpl.
    + split; [discriminate | intros [rest H]; discriminate H].
    + destruct (ascii_dec c d) as [->|Hne].
      * rewrite IH. split; intros [rest H]; exists rest; [rewrite H; reflexivity|].
        injection H as H. exact H.
      * split; [discriminate | intros [rest H]; injection H as H1 H2; congruence].
Qed.

(** [needle in hay] holds exactly when [hay] is some text, then [needle],
    then some text. *)
Lemma str_in_spec (needle hay : string) :
  PyStr.str_in needle hay = true <-> exists before after, hay = before ++ needle ++ after.
Proof.
  induction hay as [|c hay IH].
  - cbn [PyStr.str_in]. destruct (String.prefix needle "") eqn:Hp.
    + apply prefix_spec in Hp. destruct Hp as [rest Hp].
      split; [intros _; exists "", rest; exact Hp | reflexivity].
    + split; [discriminate|]. intros (before & after & H).
      destruct before; [|discriminate H]. simpl in H.
      assert (String.prefix needle "" = true) by (apply prefix_spec; exists after; exact H).
      congruence.
  - cbn [PyStr.str_in]. destruct (String.prefix needle (String c hay)) eqn:Hp.
    + apply prefix_spec in Hp. destruct Hp as [rest Hp].
      split; [intros _; exists "", rest; exact Hp | reflexivity].
    + rewrite IH. split.
      * intros (before & after & ->). exists (String c before), after. reflexivity.
      * intros (before & after & H). destruct before as [|d before].
        -- simpl in H.
           assert (String.prefix needle (String c hay) = true)
             by (apply prefix_spec; exists after; exact H).
           congruence.
        -- injection H as _ H. exists before, after. exact H.
Qed.

Lemma str_in_keyword (keyword text : string) :
  PyStr.str_in (PyStr.lower keyword) (PyStr.lower text) = true
  <-> contains_keyword keyword text.
Proof. apply str_in_spec. Qed.

Lemma str_in_empty (hay : string) : PyStr.str_in "" hay = true.
Proof. destruct hay; reflexivity. Qed.

(** ** Further properties of page resolution *)

Lemma other_state_iff (keyword : string) (l : link) :
  other_state keyword l <-> ~ contains_keyword keyword (link_text l).
Proof.
  unfold other_state. rewrite <- str_in_keyword.
  destruct (PyStr.str_in (PyStr.lower keyword) (PyStr.lower (link_text l)));
    split; congruence.
Qed.

(** X1.  The scan of the links returns None exactly when no link text
    contains the keyword; when it returns a URL, that URL comes from the
    first link whose text contains the keyword, whatever follows it: the
    href with the store's origin in front when it begins with a slash, and
    the href as it stands otherwise. *)
Theorem page_resolution_characterised (keyword : string) (links : list link) :
  (Monitor.first_matching_link keyword links = None
   <-> forall l, In l links -> ~ contains_keyword keyword (link_text l))
  /\ (forall url,
        Monitor.first_matching_link keyword links = Some url ->
        exists before l after,
          links = (before ++ l :: after)%list
          /\ (forall x, In x before -> ~ contains_keyword keyword (link_text x))
          /\ contains_keyword keyword (link_text l)
          /\ url = if PyStr.startswith (link_href l) "/"
                   then "https://store.dead.net" ++ link_href l
                   else link_href l).
Proof.
  induction links as [|l rest [IHnone IHsome]].
  - split; [split; [intros _ x [] | reflexivity] | discriminate].
  - cbn [Monitor.first_matching_link].
    destruct (PyStr.str_in (PyStr.lower keyword) (PyStr.lower (link_text l))) eqn:Hl.
    + assert (Hc : contains_keyword keyword (link_text l)) by (apply str_in_keyword; exact Hl).
      split.
      * split.
        -- destruct (PyStr.startswith (link_href l) "/"); discriminate.
        -- intros Hall. exfalso. apply (Hall l); [left; reflexivity | exact Hc].
      * intros url Hurl. exists [], l, rest.
        split; [reflexivity|]. split; [intros x []|]. split; [exact Hc|].
        unfold Monitor.store_origin in Hurl.
        destruct (PyStr.startswith (link_href l) "/"); congruence.
    + assert (Hc : ~ contains_keyword keyword (link_text l)).
      { intros Hc. apply str_in_keyword in Hc. congruence. }
      split.
      * rewrite IHnone. split.
        -- intros Hall x [<- | Hx]; [exact Hc | exact (Hall x Hx)].
        -- intros Hall x Hx. apply Hall. right. exact Hx.
      * intros url Hurl. destruct (IHsome url Hurl) as (before & m & after & -> & Hb & Hm & Hu).
        exists (l :: before), m, after.
        split; [reflexivity|]. split; [|split; [exact Hm | exact Hu]].
        intros x [<- | Hx]; [exact Hc | exact (Hb x Hx)].
Qed.


(** X3.  A STATE_KEYWORD that is set but empty is used as it is (the
    default only replaces an unset variable); the empty keyword is contained
    in every text, so the first link of the collection that carries an href
    is resolved. *)
Theorem empty_state_keyword_selects_first_link (w : world) (s : state)
    (l : link) (rest : list link) :
  getenv w "STATE_KEYWORD" = Some "" ->
  collection_links w = l :: rest ->
  get_env w "STATE_KEYWORD" (Some "indiana") = Some ""
  /\ Monitor.find_product_page w "" s
     = (Ok (Some (if PyStr.startswith (link_href l) "/"
                  then "https://store.dead.net" ++ link_href l
                  else link_href l)),
        logged s (collection_log w)).
Proof.
  intros Henv Hlinks. split.
  - unfold get_env. rewrite Henv. reflexivity.
  - rewrite find_product_page_run. unfold resolved_page. rewrite Hlinks.
    cbn [Monitor.first_matching_link PyStr.lower]. rewrite str_in_empty.
    destruct (PyStr.startswith (link_href l) "/"); reflexivity.
Qed.

Lemma empty_state_keyword_sample :
  Monitor.find_product_page (sample_world_with [("STATE_KEYWORD", "")]) "" (initial FAbsent)
  = (Ok (Some "https://store.dead.net/products/ohio-tee"), initial FAbsent).
Proof.
  exact (proj2 (empty_state_keyword_selects_first_link
                  (sample_world_with [("STATE_KEYWORD", "")]) (initial FAbsent)
                  (Link "Ohio Tee" "/products/ohio-tee")
                  [Link "Indiana Tee" "/products/indiana-tee"] eq_refl eq_refl)).
Defined.

(** X4.  When the first link whose text contains the state keyword has an
    empty href, the run treats the page as not found: it delivers exactly
    the "page missing" message and looks at no later link. *)
Theorem empty_href_reports_page_missing (w : world) (s : state)
    (before after : list link) (l : link) :
  collection_links w = (before ++ l :: after)%list ->
  (forall x, In x before -> ~ contains_keyword (state_keyword_of w) (link_text x)) ->
  contains_keyword (state_keyword_of w) (link_text l) ->
  link_href l = "" ->
  exists s' evs,
    Monitor.main w s = (Ok tt, s')
    /\ trace s' = (trace s ++ evs)%list
    /\ notified evs = [PyStr.title (state_keyword_of w) ++ " shirt page is not yet available."].
Proof.
  intros Hlinks Hbefore Hl Hhref. apply page_missing_run.
  unfold resolved_page. rewrite Hlinks, first_matching_link_first.
  - rewrite Hhref. reflexivity.
  - apply Forall_forall. intros x Hx. apply other_state_iff, Hbefore, Hx.
  - apply str_in_keyword, Hl.
Qed.

Lemma empty_href_sample :
  exists s',
    Monitor.main empty_href_world (initial FAbsent) = (Ok tt, s')
    /\ notified (trace s') = ["Indiana shirt page is not yet available."].
Proof.
  destruct (empty_href_reports_page_missing empty_href_world (initial FAbsent)
              [Link "Ohio Tee" "/products/ohio-tee"]
              [Link "Indiana Hoodie" "/products/indiana-hoodie"]
              (Link "Indiana Tee" "") eq_refl) as (s' & evs & Hrun & Htr & Hn).
  - intros x [<- | []]. intros Hc. apply str_in_keyword in Hc. discriminate Hc.
  - apply str_in_keyword. reflexivity.
  - reflexivity.
  - exists s'. split; [exact Hrun|]. rewrite Htr. exact Hn.
Defined.

(** ** Further properties of the availability check *)

(** X5.  The first variant whose title contains the size keyword decides,
    whatever variants follow it: the value of its "available" field (False
    when the field is absent) is what the check returns, and the run
    delivers exactly one message: "variant missing" when that value is null,
    "available" with the URL when it is truthy, "sold out" with the URL
    otherwise. *)
Theorem first_matching_variant_decides (w : world) (s : state) (product_url : string)
    (data : json) (before after : list json) (fields : list (string * json))
    (title : string) :
  resolved_page w (state_keyword_of w) = Some product_url ->
  PyStr.truthy product_url = true ->
  product_fetch_of w product_url = Fetched data ->
  has_variants data (before ++ JObj fields :: after) ->
  Forall (other_size (size_keyword_of w)) before ->
  dict_get fields "title" (JStr "") = JStr title ->
  contains_keyword (size_keyword_of w) title ->
  Monitor.check_variant_available w product_url (size_keyword_of w) s
  = (Ok (dict_get fields "available" (JBool false)), s)
  /\ exists s' evs,
       Monitor.main w s = (Ok tt, s')
       /\ trace s' = (trace s ++ evs)%list
       /\ notified evs
          = [match dict_get fields "available" (JBool false) with
             | JNull =>
                 PyStr.title (state_keyword_of w) ++ " product found, but the "
                   ++ PyStr.title (size_keyword_of w) ++ " variant is missing."
             | value =>
                 if json_truthy value
                 then PyStr.title (state_keyword_of w) ++ " "
                        ++ PyStr.title (size_keyword_of w)
                        ++ " is available! " ++ product_url
                 else PyStr.title (state_keyword_of w) ++ " "
                        ++ PyStr.title (size_keyword_of w)
                        ++ " is currently sold out. " ++ product_url
             end].
Proof.
  intros Hpage Hurl Hf Hv Hbefore Ht Hin. apply str_in_keyword in Hin.
  assert (Hcheck : forall s0,
             Monitor.check_variant_available w product_url (size_keyword_of w) s0
             = (Ok (dict_get fields "available" (JBool false)), s0)).
  { intros s0. exact (check_variant_available_unlabelled w product_url (size_keyword_of w)
                        data before after fields title s0 Hf Hv Hbefore Ht Hin). }
  split; [apply Hcheck|].
  rewrite monitor_main_run, Hpage, Hurl.
  destruct (report_variant_run w (state_keyword_of w) (size_keyword_of w) product_url
              _ (logged s (collection_log w)) _ []
              (Hcheck _) (eq_sym (logged_nil _)) eq_refl)
    as (s' & evs & -> & Htr & _ & Hn).
  exists s', (collection_log w ++ evs)%list.
  split; [reflexivity|]. split.
  - rewrite Htr. cbn [trace logged]. rewrite app_assoc. reflexivity.
  - rewrite notified_app, collection_log_silent, Hn.
    destruct (dict_get fields "available" (JBool false)); reflexivity.
Qed.

(** An "X-Large" variant listed before "Large" decides for the keyword
    "large"; a null "available" reads as a missing variant. *)
Lemma first_matching_variant_sample :
  (exists s',
     Monitor.main
       (world_answering (HttpResponse (Response 200 "" (Ok (JObj [("product",
          JObj [("variants",
                 JArr [JObj [("title", JStr "Small"); ("available", JBool false)];
                       JObj [("title", JStr "X-Large"); ("available", JBool true)];
                       JObj [("title", JStr "Large"); ("available", JBool false)]])])])))))
       (initial FAbsent) = (Ok tt, s')
     /\ notified (trace s')
        = ["Indiana Large is available! https://store.dead.net/products/indiana-tee"])
  /\ (exists s',
        Monitor.main
          (world_answering (HttpResponse (Response 200 "" (Ok (JObj [("product",
             JObj [("variants",
                    JArr [JObj [("title", JStr "Large"); ("available", JNull)]])])])))))
          (initial FAbsent) = (Ok tt, s')
        /\ notified (trace s')
           = ["Indiana product found, but the Large variant is missing."]).
Proof.
  split.
  - destruct (first_matching_variant_decides
                (world_answering (HttpResponse (Response 200 "" (Ok (JObj [("product",
                   JObj [("variants",
                          JArr [JObj [("title", JStr "Small"); ("available", JBool false)];
                                JObj [("title", JStr "X-Large"); ("available", JBool true)];
                                JObj [("title", JStr "Large"); ("available", JBool false)]])])])))))
                (initial FAbsent) "https://store.dead.net/products/indiana-tee" _
                [JObj [("title", JStr "Small"); ("available", JBool false)]]
                [JObj [("title", JStr "Large"); ("available", JBool false)]]
                [("title", JStr "X-Large"); ("available", JBool true)] "X-Large"
                eq_refl eq_refl eq_refl)
      as (_ & s' & evs & Hrun & Htr & Hn).
    + eexists _, _. repeat split. discriminate.
    + repeat constructor. eexists _, _. repeat split.
    + reflexivity.
    + apply str_in_keyword. reflexivity.
    + exists s'. split; [exact Hrun|]. rewrite Htr. exact Hn.
  - destruct (first_matching_variant_decides
                (world_answering (HttpResponse (Response 200 "" (Ok (JObj [("product",
                   JObj [("variants",
                          JArr [JObj [("title", JStr "Large"); ("available", JNull)]])])])))))
                (initial FAbsent) "https://store.dead.net/products/indiana-tee" _
                [] [] [("title", JStr "Large"); ("available", JNull)] "Large"
                eq_refl eq_refl eq_refl)
      as (_ & s' & evs & Hrun & Htr & Hn).
    + eexists _, _. repeat split. discriminate.
    + constructor.
    + reflexivity.
    + apply str_in_keyword. reflexivity.
    + exists s'. split; [exact Hrun|]. rewrite Htr. exact Hn.
Defined.

(** X6.  Product data that is not a JSON object, or whose "product" is
    truthy without being an object, makes the availability check raise
    AttributeError outside its try block: the run ends with that exception,
    having delivered no message and made no request. *)
Theorem malformed_product_data_raises (w : world) (s : state) (product_url : string)
    (data : json) :
  resolved_page w (state_keyword_of w) = Some product_url ->
  PyStr.truthy product_url = true ->
  product_fetch_of w product_url = Fetched data ->
  ((forall fields, data <> JObj fields)
   \/ (exists fields,
         data = JObj fields
         /\ json_truthy (dict_get fields "product" JNull) = true
         /\ forall product_fields, dict_get fields "product" JNull <> JObj product_fields)) ->
  Monitor.main w s = (Raise (Exn "AttributeError" "get"), logged s (collection_log w))
  /\ notified (collection_log w) = []
  /\ posted (collection_log w) = [].
Proof.
  intros Hpage Hurl Hf Hbad.
  split; [|split; [apply collection_log_silent|]].
  - rewrite monitor_main_run, Hpage, Hurl. unfold report_variant. unfold bind at 1.
    rewrite check_variant_available_run, Hf.
    destruct Hbad as [Hno | (fields & -> & Htruthy & Hno)].
    + unfold bind, py_get, raise. destruct data; try reflexivity.
      exfalso. exact (Hno _ eq_refl).
    + unfold bind at 1. unfold py_get at 1, ret at 1. rewrite Htruthy. cbn [negb].
      unfold bind, py_get, raise.
      destruct (dict_get fields "product" JNull); try reflexivity.
      exfalso. exact (Hno _ eq_refl).
  - unfold collection_log. destruct (http_get_page w Monitor.collection_url) as [e | r];
      [reflexivity | destruct (is_http_error (status_code r)); reflexivity].
Qed.

(** A response whose body is the JSON text [[]], and one whose "product" is
    a string. *)
Lemma malformed_product_data_sample :
  Monitor.main (world_answering (HttpResponse (Response 200 "" (Ok (JArr [])))))
    (initial FAbsent)
  = (Raise (Exn "AttributeError" "get"), initial FAbsent)
  /\ Monitor.main
       (world_answering (HttpResponse (Response 200 "" (Ok (JObj [("product", JStr "gone")])))))
       (initial FAbsent)
     = (Raise (Exn "AttributeError" "get"), initial FAbsent).
Proof.
  split.
  - refine (proj1 (malformed_product_data_raises
                     (world_answering (HttpResponse (Response 200 "" (Ok (JArr [])))))
                     (initial FAbsent) "https://store.dead.net/products/indiana-tee" _
                     eq_refl eq_refl eq_refl _)).
    left. discriminate.
  - refine (proj1 (malformed_product_data_raises
                     (world_answering
                        (HttpResponse (Response 200 "" (Ok (JObj [("product", JStr "gone")])))))
                     (initial FAbsent) "https://store.dead.net/products/indiana-tee" _
                     eq_refl eq_refl eq_refl _)).
    right. eexists. split; [reflexivity|]. split; [reflexivity | discriminate].
Defined.

(** ** The checker as a whole *)

Section CheckerTotals.
Variable w : world.




End CheckerTotals.


Lemma rstrip_slash_app_slash (s : string) :
  PyStr.rstrip_slash (s ++ "/") = PyStr.rstrip_slash s.
Proof.
  induction s as [|c s IH]; [reflexivity|].
  cbn [append PyStr.rstrip_slash]. rewrite IH. reflexivity.
Qed.

Lemma rstrip_slash_no_trailing_slash (s p : string) :
  PyStr.rstrip_slash s <> p ++ "/".
Proof.
  revert p. induction s as [|c s IH]; intros p; cbn [PyStr.rstrip_slash].
  - destruct p; discriminate.
  - destruct (PyStr.rstrip_slash s) as [|d r] eqn:Hr.
    + destruct (Ascii.eqb c "/") eqn:Hc.
      * destruct p; discriminate.
      * destruct p as [|e p]; simpl.
        -- intros H. injection H as ->. discriminate Hc.
        -- intros H. injection H as _ H. destruct p; discriminate H.
    + destruct p as [|e p]; simpl.
      * discriminate.
      * intros H. injection H as _ H. exact (IH p H).
Qed.

Lemma rstrip_slash_fixed (s : string) :
  (forall p, s <> p ++ "/") -> PyStr.rstrip_slash s = s.
Proof.
  induction s as [|c s IH]; intros Hs; [reflexivity|].
  cbn [PyStr.rstrip_slash]. destruct s as [|d s].
  - simpl. destruct (Ascii.eqb c "/") eqn:Hc; [|reflexivity].
    apply Ascii.eqb_eq in Hc. subst c. exfalso. exact (Hs "" eq_refl).
  - rewrite IH; [reflexivity|].
    intros p Hp. apply (Hs (String c p)). simpl. rewrite Hp. reflexivity.
Qed.

(** X8.  Trailing slashes of the product URL do not matter to the
    availability check: they are all dropped before ".json" is appended, so
    the URL with one more slash is checked exactly as the URL itself, the
    URL that is requested never has a slash before ".json", and a URL
    without a trailing slash just gets ".json" appended. *)
Theorem product_data_url_ignores_trailing_slashes (w : world)
    (product_url size_keyword : string) (s : state) :
  Monitor.check_variant_available w (product_url ++ "/") size_keyword s
  = Monitor.check_variant_available w product_url size_keyword s
  /\ (forall p, PyStr.rstrip_slash product_url <> p ++ "/")
  /\ ((forall p, product_url <> p ++ "/") ->
      PyStr.rstrip_slash product_url ++ ".json" = product_url ++ ".json").
Proof.
  split; [|split].
  - unfold Monitor.check_variant_available. rewrite rstrip_slash_app_slash. reflexivity.
  - apply rstrip_slash_no_trailing_slash.
  - intros Hno. rewrite (rstrip_slash_fixed product_url Hno). reflexivity.
Qed.

Lemma product_data_url_sample :
  PyStr.rstrip_slash "/p/a" ++ ".json" = "/p/a.json"
  /\ Monitor.check_variant_available sample_world "/p/a//" "large" (initial FAbsent)
     = Monitor.check_variant_available sample_world "/p/a" "large" (initial FAbsent).
Proof.
  split.
  - apply (product_data_url_ignores_trailing_slashes sample_world "/p/a" "large"
             (initial FAbsent)).
    intros p H.
    repeat (destruct p as [|? p]; [discriminate H | injection H as _ H]).
    destruct p; discriminate H.
  - rewrite <- (proj1 (product_data_url_ignores_trailing_slashes sample_world "/p/a"
                         "large" (initial FAbsent))).
    exact (proj1 (product_data_url_ignores_trailing_slashes sample_world "/p/a/"
                    "large" (initial FAbsent))).
Defined.

(** X9.  When the collection page cannot be fetched (the request raises, or
    the answer has an error status), the failure is logged to the error
    stream and the run goes on as if no page existed: it delivers exactly
    the "page missing" message. *)
Theorem collection_fetch_failure_reports_page_missing (w : world) (s : state) (text : string) :
  (exists e, http_get_page w Monitor.collection_url = HttpRaises e /\ text = exn_text e)
  \/ (exists r, http_get_page w Monitor.collection_url = HttpResponse r
                /\ is_http_error (status_code r) = true /\ text = http_error r) ->
  exists s' evs,
    Monitor.main w s = (Ok tt, s')
    /\ trace s' = (trace s ++ EStderr ("Error fetching collection page: " ++ text) :: evs)%list
    /\ notified evs = [PyStr.title (state_keyword_of w) ++ " shirt page is not yet available."]
    /\ cache s' = cache s.
Proof.
  intros Hfail.
  assert (Hlinks : collection_links w = []
                   /\ collection_log w = [EStderr ("Error fetching collection page: " ++ text)]).
  { unfold collection_links, collection_log.
    destruct Hfail as [(e & -> & ->) | (r & -> & -> & ->)]; split; reflexivity. }
  destruct Hlinks as [Hlinks Hlog].
  rewrite monitor_main_run. unfold resolved_page. rewrite Hlinks, Hlog.
  cbn [Monitor.first_matching_link].
  destruct (monitor_send_notification_run w (monitor_topic w)
              (Monitor.msg_page_missing (state_keyword_of w))
              (logged s [EStderr ("Error fetching collection page: " ++ text)]))
    as (evs & -> & Hn & _).
  eexists _, evs. cbn [trace cache logged]. rewrite <- app_assoc.
  split; [reflexivity|]. split; [reflexivity|]. split; [exact Hn | reflexivity].
Qed.

Lemma collection_fetch_failure_sample :
  exists s',
    Monitor.main offline_world (initial FAbsent) = (Ok tt, s')
    /\ stderr_lines (trace s')
       = ["Error fetching collection page: Read timed out.";
          "Error sending notification: Read timed out."]
    /\ notified (trace s') = ["Indiana shirt page is not yet available."].
Proof.
  destruct (collection_fetch_failure_reports_page_missing offline_world (initial FAbsent)
              "Read timed out.") as (s' & evs & Hrun & Htr & Hn & _).
  - left. eexists. split; reflexivity.
  - exists s'. split; [exact Hrun|].
    vm_compute in Hrun. injection Hrun as <-. split; reflexivity.
Defined.

(** ** Further properties of the novelty detector *)

Section DetectorSteps.
Variable w : world.

(** With a channel, what a run posts: one message per new title. *)
Lemma store_main_posts (s : state) (previous : list string) (t : string) :
  last_seen_of (cache s) = JArr (map JStr previous) ->
  store_topic w = Some t -> PyStr.truthy t = true ->
  exists s',
    StoreMonitor.main w s = (Ok tt, s')
    /\ posted (trace s')
       = (posted (trace s) ++ map (new_product_post t) (spec_new (listing_titles w) previous))%list
    /\ cache s' = match spec_new (listing_titles w) previous with
                  | [] => cache s
                  | _ :: _ => cache_after_write w (cache s) (listing_titles w)
                  end.
Proof.
  intros Hprev Htopic Ht.
  destruct (store_main_effect w s previous Hprev) as (evs & Hrun & Hnone & Hsome).
  eexists. split; [exact Hrun|]. cbn [trace cache]. split; [|reflexivity].
  rewrite posted_app. f_equal.
  destruct (spec_new (listing_titles w) previous) as [|n0 new] eqn:Hnew.
  - rewrite (Hnone eq_refl). apply listing_log_quiet.
  - destruct Hsome as (sent & err & -> & _ & _ & Hpe & _ & _ & Hon); [discriminate|].
    rewrite posted_app. cbn [posted]. rewrite Hpe, app_nil_r.
    exact (Hon t Htopic Ht).
Qed.

(** A refused or torn write: the exception is caught and logged. *)
Lemma persist_failed (titles : list string) (s : state) (e : exn) :
  file_write w = WriteOpenFails e \/ (exists pe, file_write w = WriteDumpFails e pe) ->
  persist w titles s
  = (Ok tt,
     State (trace s ++ [EWrite StoreMonitor.cache_file (firstn 50 titles);
                        EStderr ("Error writing cache file: " ++ exn_text e)])
       (posts_made s) (cache_after_write w (cache s) titles)).
Proof.
  unfold persist, try_except, StoreMonitor.dump_cache, eprint, emit, cache_after_write.
  intros [-> | (pe & ->)]; cbn [trace posts_made cache];
    rewrite <- app_assoc; reflexivity.
Qed.


End DetectorSteps.

(** X10.  The novelty detector posts to the channel named by
    NTFY_STORE_TOPIC when that variable is set and not empty, and otherwise
    (unset, or set to the empty string) to the channel named by NTFY_TOPIC:
    every new title is posted there, in order. *)
Theorem detector_channel_precedence (w : world) (s : state) (previous : list string)
    (t : string) :
  last_seen_of (cache s) = JArr (map JStr previous) ->
  PyStr.truthy t = true ->
  getenv w "NTFY_STORE_TOPIC" = Some t
  \/ (PyStr.truthy_opt (getenv w "NTFY_STORE_TOPIC") = false
      /\ getenv w "NTFY_TOPIC" = Some t) ->
  exists s',
    StoreMonitor.main w s = (Ok tt, s')
    /\ posted (trace s')
       = (posted (trace s)
          ++ map (fun title =>
                    (("https://ntfy.sh/" ++ t)%string,
                     ("New product added: " ++ title)%string))
               (spec_new (listing_titles w) previous))%list.
Proof.
  intros Hprev Ht Henv.
  assert (Htopic : store_topic w = Some t).
  { unfold store_topic, StoreMonitor.py_or, get_env.
    destruct Henv as [-> | [Hoff ->]].
    - cbn [PyStr.truthy_opt]. rewrite Ht. reflexivity.
    - destruct (getenv w "NTFY_STORE_TOPIC"); rewrite Hoff; reflexivity. }
  destruct (store_main_posts w s previous t Hprev Htopic Ht) as (s' & Hrun & Hposts & _).
  exists s'. split; [exact Hrun | exact Hposts].
Qed.

Lemma detector_channel_sample :
  (exists s',
     StoreMonitor.main
       (sample_world_with [("NTFY_STORE_TOPIC", ""); ("NTFY_TOPIC", "deadshirts")])
       (initial (snapshot ["Ohio Tee"])) = (Ok tt, s')
     /\ posted (trace s') = [("https://ntfy.sh/deadshirts", "New product added: Indiana Tee")])
  /\ (exists s',
        StoreMonitor.main
          (sample_world_with [("NTFY_STORE_TOPIC", "newshirts"); ("NTFY_TOPIC", "deadshirts")])
          (initial (snapshot ["Ohio Tee"])) = (Ok tt, s')
        /\ posted (trace s') = [("https://ntfy.sh/newshirts", "New product added: Indiana Tee")]).
Proof.
  split.
  - apply (detector_channel_precedence
             (sample_world_with [("NTFY_STORE_TOPIC", ""); ("NTFY_TOPIC", "deadshirts")])
             (initial (snapshot ["Ohio Tee"])) ["Ohio Tee"] "deadshirts" eq_refl eq_refl).
    right. split; reflexivity.
  - apply (detector_channel_precedence
             (sample_world_with [("NTFY_STORE_TOPIC", "newshirts"); ("NTFY_TOPIC", "deadshirts")])
             (initial (snapshot ["Ohio Tee"])) ["Ohio Tee"] "newshirts" eq_refl eq_refl).
    left. reflexivity.
Defined.

(** X11.  The novelty detector's notifier returns True exactly when a
    channel is configured and its one POST came back with a status that is
    no client or server error; in every case it returns (it never raises),
    makes at most that one request and leaves the cache file alone. *)
Theorem store_notifier_returns_true_on_success_only (w : world) (topic : option string)
    (message : string) (s : state) :
  exists b s',
    StoreMonitor.send_notification w topic message s = (Ok b, s')
    /\ cache s' = cache s
    /\ posts_made s' <= S (posts_made s)
    /\ (b = true
        <-> exists t r,
              topic = Some t /\ PyStr.truthy t = true
              /\ http_post w (posts_made s) ("https://ntfy.sh/" ++ t) message = HttpResponse r
              /\ is_http_error (status_code r) = false).
Proof.
  destruct topic as [t|]; [destruct (PyStr.truthy t) eqn:Ht|].
  - rewrite (store_notifier_logs_failures w t message s Ht). unfold ntfy_url.
    destruct (http_post w (posts_made s) ("https://ntfy.sh/" ++ t) message) as [e | r] eqn:Hp;
      [|destruct (is_http_error (status_code r)) eqn:Hc];
      eexists _, _; (split; [reflexivity|]); cbn [cache posts_made];
      (split; [reflexivity|]); (split; [lia|]).
    + split; [discriminate|]. intros (t' & r & Ht' & _ & Hr & _).
      injection Ht' as <-. congruence.
    + split; [discriminate|]. intros (t' & r' & Ht' & _ & Hr & Hok).
      injection Ht' as <-. rewrite Hp in Hr. injection Hr as <-. congruence.
    + split; [|reflexivity]. intros _. exists t, r. auto.
  - unfold StoreMonitor.send_notification. rewrite Ht.
    eexists _, _. split; [reflexivity|]. cbn [cache posts_made].
    split; [reflexivity|]. split; [lia|].
    split; [discriminate|]. intros (t' & r & Ht' & Htt & _). injection Ht' as <-. congruence.
  - eexists _, _. split; [reflexivity|]. cbn [cache posts_made].
    split; [reflexivity|]. split; [lia|].
    split; [discriminate|]. intros (t' & r & Ht' & _). discriminate Ht'.
Qed.




(** X13.  When a title is new and the cache file cannot be rewritten (the
    open is refused, or the dump breaks off), the run still returns: every
    new title has been notified, the failure is the last line on the error
    stream, and the file is as it was (refused) or no longer parses (broken
    off). *)
Theorem failed_write_is_logged (w : world) (s : state) (previous : list string) (e : exn) :
  last_seen_of (cache s) = JArr (map JStr previous) ->
  spec_new (listing_titles w) previous <> [] ->
  file_write w = WriteOpenFails e \/ (exists pe, file_write w = WriteDumpFails e pe) ->
  exists s' sent,
    StoreMonitor.main w s = (Ok tt, s')
    /\ trace s'
       = (trace s ++ sent
          ++ [EWrite ".store_monitor_cache.json" (firstn 50 (listing_titles w));
              EStderr ("Error writing cache file: " ++ exn_text e)])%list
    /\ writes sent = []
    /\ (forall t, store_topic w = Some t -> PyStr.truthy t = true ->
          posted sent
          = map (new_product_post t) (spec_new (listing_titles w) previous))
    /\ cache s' = match file_write w with
                  | WriteDumpFails _ parse_error => FMalformed parse_error
                  | _ => cache s
                  end.
Proof.
  intros Hprev Hnew Hfail.
  rewrite (store_main_run w s previous Hprev).
  assert (Hcur : listing_titles w <> [])
    by (intros Hnil; rewrite Hnil in Hnew; exact (Hnew eq_refl)).
  rewrite (listing_log_nil w Hcur), logged_nil.
  destruct (listing_titles w) as [|t0 rest] eqn:Hlist; [congruence|].
  destruct (spec_new (t0 :: rest) previous) as [|n0 new] eqn:Hn; [congruence|].
  destruct (notify_each_run w (store_topic w) (n0 :: new) s)
    as (sent & Hsent & Hws & _ & Hon).
  unfold bind. rewrite Hsent, (persist_failed w (t0 :: rest) _ e Hfail).
  eexists _, sent. cbn [trace cache]. rewrite <- app_assoc.
  split; [reflexivity|]. split; [reflexivity|]. split; [exact Hws|]. split; [exact Hon|].
  unfold cache_after_write. destruct Hfail as [-> | (pe & ->)]; reflexivity.
Qed.

Lemma failed_write_sample :
  exists s',
    StoreMonitor.main readonly_world (initial (snapshot ["Ohio Tee"])) = (Ok tt, s')
    /\ stderr_lines (trace s') = ["Error writing cache file: [Errno 13] Permission denied"]
    /\ cache s' = snapshot ["Ohio Tee"].
Proof.
  destruct (failed_write_is_logged readonly_world (initial (snapshot ["Ohio Tee"]))
              ["Ohio Tee"] (Exn "PermissionError" "[Errno 13] Permission denied") eq_refl)
    as (s' & sent & Hrun & _ & _ & _ & Hcache).
  - vm_compute. discriminate.
  - left. reflexivity.
  - exists s'. split; [exact Hrun|]. split; [|exact Hcache].
    vm_compute in Hrun. injection Hrun as <-. reflexivity.
Defined.

Lemma spec_new_app (a b previous : list string) :
  spec_new (a ++ b) previous = (spec_new a previous ++ spec_new b previous)%list.
Proof. unfold spec_new. apply filter_app. Qed.

Lemma spec_new_beyond (n : nat) (current : list string) :
  spec_new current (firstn n current) = spec_new (skipn n current) (firstn n current).
Proof.
  rewrite <- (firstn_skipn n current) at 1. rewrite spec_new_app.
  rewrite (spec_new_all_seen (firstn n current) (firstn n current)); [reflexivity|].
  intros t Ht. exact Ht.
Qed.

Lemma spec_new_none_seen (current previous : list string) :
  (forall t, In t current -> ~ In t previous) ->
  spec_new current previous = current.
Proof.
  intros Hnone. unfold spec_new. induction current as [|t rest IH]; simpl; [reflexivity|].
  destruct (seen_in previous t) eqn:Hs.
  - apply seen_in_spec in Hs. exfalso. exact (Hnone t (or_introl eq_refl) Hs).
  - simpl. f_equal. apply IH. intros u Hu. apply Hnone. right. exact Hu.
Qed.

Lemma NoDup_app_apart (a b : list string) :
  NoDup (a ++ b) -> forall t, In t b -> ~ In t a.
Proof.
  induction a as [|x a IH]; simpl; intros Hnd t Hb; [tauto|].
  inversion Hnd as [|? ? Hx Hrest]; subst.
  intros [<- | Ha].
  - apply Hx, in_or_app. right. exact Hb.
  - exact (IH Hrest t Hb Ha).
Qed.

(** X14.  A failed write costs repeated notifications: when a run found new
    titles but could not rewrite the cache file, the next run over the same
    listing notifies again, the same new titles after a refused open (the
    file is as before) and every listed title after a dump that broke off
    (the file no longer parses). *)
Theorem failed_write_repeats_notifications (w1 w2 : world) (f : file_state)
    (previous : list string) (t : string) :
  last_seen_of f = JArr (map JStr previous) ->
  spec_new (listing_titles w1) previous <> [] ->
  file_write w1 <> WriteOk ->
  http_get_page w2 StoreMonitor.listing_url = http_get_page w1 StoreMonitor.listing_url ->
  store_topic w2 = Some t -> PyStr.truthy t = true ->
  exists s1 s2,
    StoreMonitor.main w1 (initial f) = (Ok tt, s1)
    /\ StoreMonitor.main w2 (initial (cache s1)) = (Ok tt, s2)
    /\ posted (trace s2)
       = map (new_product_post t)
           (match file_write w1 with
            | WriteDumpFails _ _ => listing_titles w1
            | _ => spec_new (listing_titles w1) previous
            end)
    /\ posted (trace s2) <> [].
Proof.
  intros Hprev Hnew Hfail Hsame Htopic Ht.
  assert (Htitles : listing_titles w2 = listing_titles w1)
    by (unfold listing_titles; rewrite Hsame; reflexivity).
  assert (Hcur : listing_titles w1 <> [])
    by (intros Hnil; rewrite Hnil in Hnew; exact (Hnew eq_refl)).
  destruct (store_main_effect w1 (initial f) previous Hprev) as (evs & Hrun & _).
  cbn [initial cache trace posts_made] in Hrun.
  destruct (spec_new (listing_titles w1) previous) as [|n0 new] eqn:Hn; [congruence|].
  unfold cache_after_write in Hrun.
  destruct (file_write w1) as [|e|e pe] eqn:Hw; [congruence| |].
  - destruct (store_main_posts w2 (initial f) previous t Hprev Htopic Ht)
      as (s2 & Hrun2 & Hposts & _).
    rewrite Htitles, Hn in Hposts. cbn [initial trace posted app] in Hposts.
    eexists _, s2. split; [exact Hrun|]. split; [exact Hrun2|].
    split; [exact Hposts|]. rewrite Hposts. discriminate.
  - destruct (store_main_posts w2 (initial (FMalformed pe)) [] t eq_refl Htopic Ht)
      as (s2 & Hrun2 & Hposts & _).
    rewrite Htitles, spec_new_no_previous in Hposts.
    cbn [initial trace posted app] in Hposts.
    eexists _, s2. split; [exact Hrun|]. split; [exact Hrun2|].
    split; [exact Hposts|]. rewrite Hposts.
    destruct (listing_titles w1); [congruence | discriminate].
Qed.

Lemma failed_write_repeats_sample :
  exists s1 s2,
    StoreMonitor.main torn_world (initial (snapshot ["Ohio Tee"])) = (Ok tt, s1)
    /\ StoreMonitor.main sample_world (initial (cache s1)) = (Ok tt, s2)
    /\ posted (trace s2)
       = [("https://ntfy.sh/deadshirts", "New product added: Indiana Tee");
          ("https://ntfy.sh/deadshirts", "New product added: Ohio Tee")].
Proof.
  destruct (failed_write_repeats_notifications torn_world sample_world
              (snapshot ["Ohio Tee"]) ["Ohio Tee"] "deadshirts" eq_refl)
    as (s1 & s2 & Hrun1 & Hrun2 & Hposts & _); try reflexivity.
  - vm_compute. discriminate.
  - discriminate.
  - exists s1, s2. split; [exact Hrun1|]. split; [exact Hrun2 | exact Hposts].
Defined.

(** X15.  Titles beyond the fiftieth are forgotten by every write: after a
    run that rewrote the cache file, the next run over the same listing
    notifies again every title listed after position 50 that is not also
    among the first 50, which for a listing without repeated titles is
    every title after position 50. *)
Theorem titles_beyond_50_are_notified_again (w1 w2 : world) (f : file_state)
    (previous : list string) (t : string) :
  last_seen_of f = JArr (map JStr previous) ->
  spec_new (listing_titles w1) previous <> [] ->
  file_write w1 = WriteOk ->
  http_get_page w2 StoreMonitor.listing_url = http_get_page w1 StoreMonitor.listing_url ->
  store_topic w2 = Some t -> PyStr.truthy t = true ->
  exists s1 s2,
    StoreMonitor.main w1 (initial f) = (Ok tt, s1)
    /\ StoreMonitor.main w2 (initial (cache s1)) = (Ok tt, s2)
    /\ posted (trace s2)
       = map (new_product_post t)
           (spec_new (skipn 50 (listing_titles w1)) (firstn 50 (listing_titles w1)))
    /\ (NoDup (listing_titles w1) ->
        posted (trace s2) = map (new_product_post t) (skipn 50 (listing_titles w1))).
Proof.
  intros Hprev Hnew Hok Hsame Htopic Ht.
  assert (Htitles : listing_titles w2 = listing_titles w1)
    by (unfold listing_titles; rewrite Hsame; reflexivity).
  destruct (store_main_effect w1 (initial f) previous Hprev) as (evs & Hrun & _).
  cbn [initial cache trace posts_made] in Hrun.
  destruct (spec_new (listing_titles w1) previous) as [|n0 new] eqn:Hn; [congruence|].
  unfold cache_after_write in Hrun. rewrite Hok in Hrun.
  destruct (store_main_posts w2 (initial (snapshot (firstn 50 (listing_titles w1))))
              (firstn 50 (listing_titles w1)) t eq_refl Htopic Ht)
    as (s2 & Hrun2 & Hposts & _).
  rewrite Htitles, spec_new_beyond in Hposts. cbn [initial trace posted app] in Hposts.
  eexists _, s2. split; [exact Hrun|]. split; [exact Hrun2|]. split; [exact Hposts|].
  intros Hnd. rewrite Hposts. f_equal. apply spec_new_none_seen.
  apply NoDup_app_apart. rewrite firstn_skipn. exact Hnd.
Qed.

(** Sixty titles: the second run notifies the last ten again. *)
Lemma titles_beyond_50_sample :
  exists s1 s2,
    StoreMonitor.main sixty_world (initial FAbsent) = (Ok tt, s1)
    /\ StoreMonitor.main sixty_world (initial (cache s1)) = (Ok tt, s2)
    /\ length (posted (trace s1)) = 60
    /\ posted (trace s2) = map (new_product_post "deadshirts") (skipn 50 sixty_titles).
Proof.
  destruct (titles_beyond_50_are_notified_again sixty_world sixty_world FAbsent []
              "deadshirts" eq_refl)
    as (s1 & s2 & Hrun1 & Hrun2 & Hposts & _); try reflexivity.
  - vm_compute. discriminate.
  - exists s1, s2. split; [exact Hrun1|]. split; [exact Hrun2|]. split.
    + vm_compute in Hrun1. injection Hrun1 as <-. reflexivity.
    + rewrite Hposts. reflexivity.
Defined.

